(** * cafe_inventory.py: the in-memory inventory domain model

    A shallow embedding of [src/cafe_inventory.py] (the entity classes and
    [InventorySystem]) and the properties of its operations.

    - Python [int] is unbounded: [Z].
    - Python [str]: [string], a character being a code point below 256
      (Latin-1), with [str.lower] and [str.strip] as Python defines them
      on that range.
    - Python [dict] keeps insertion order, and the code iterates over
      [values()] and [items()]: a dict is an association list in insertion
      order, assignment to a present key keeps its position.
    - Python [float] (the price): sign, mantissa and exponent,
      [spec_float] of the Standard Library.
    - An [InventorySystem] method is a computation in a state and exception
      monad over the record of the four collections and four counters;
      [raise] leaves the state as it is at that point.
    - [datetime.now()] is an input of the operation that reads it.
    - Arguments have the types of their annotations, so [int(x)] is [x];
      the default values of [add_item] are passed by the caller, and the
      optional [qty] of [create_order_for_item] is an [option].
    - The class [Stock] is used nowhere in the source and is left out, as
      are [print_table] and the menu loop of [main], which only call the
      methods modelled here. *)

From Stdlib Require Import ZArith List String Ascii Bool Lia.
From Stdlib Require Import Sorting.Sorted Sorting.Permutation.
From Stdlib Require Import DecimalString.
From Stdlib Require Import Floats.SpecFloat.
Import ListNotations.

Local Open Scope string_scope.
Local Open Scope Z_scope.

(** ** Python built-ins the source uses *)

Module Py.

(** *** dict: insertion-ordered, keyed by int *)

Definition dict (V : Type) : Type := list (Z * V).

Definition empty {V} : dict V := [].

(** [d.get(k)] *)
Fixpoint get {V} (k : Z) (d : dict V) : option V :=
  match d with
  | [] => None
  | (k', v) :: d' => if k =? k' then Some v else get k d'
  end.

(** [k in d] *)
Definition mem {V} (k : Z) (d : dict V) : bool :=
  match get k d with Some _ => true | None => false end.

(** [d[k] = v]: a present key keeps its place, a new key goes last *)
Fixpoint set {V} (k : Z) (v : V) (d : dict V) : dict V :=
  match d with
  | [] => [(k, v)]
  | (k', v') :: d' =>
      if k =? k' then (k', v) :: d' else (k', v') :: set k v d'
  end.

(** the object stored under [k] is changed in place: [d[k].field = ...] *)
Fixpoint alter {V} (f : V -> V) (k : Z) (d : dict V) : dict V :=
  match d with
  | [] => []
  | (k', v) :: d' =>
      if k =? k' then (k', f v) :: d' else (k', v) :: alter f k d'
  end.

(** [d.values()], [d.items()] *)
Definition values {V} (d : dict V) : list V := map snd d.
Definition items {V} (d : dict V) : list (Z * V) := d.

(** *** sorted(xs, key=...): stable, ascending by an int key *)

Fixpoint insert_by {A} (key : A -> Z) (x : A) (l : list A) : list A :=
  match l with
  | [] => [x]
  | y :: ys => if key x <=? key y then x :: y :: ys
               else y :: insert_by key x ys
  end.

Definition sorted {A} (key : A -> Z) (l : list A) : list A :=
  fold_right (insert_by key) [] l.

(** *** str *)

(** [str(n)] for an int *)
Definition str (n : Z) : string := NilZero.string_of_int (Z.to_int n).

(** [c.lower()] on a code point below 256: A-Z, and the Latin-1 capitals
    0xC0-0xDE but the multiplication sign 0xD7, move up by 32 *)
Definition lower_char (c : ascii) : ascii :=
  let n := nat_of_ascii c in
  if ((65 <=? n) && (n <=? 90))%nat
     || ((192 <=? n) && (n <=? 222) && negb (n =? 215))%nat
  then ascii_of_nat (n + 32) else c.

Fixpoint lower (s : string) : string :=
  match s with
  | EmptyString => EmptyString
  | String c s' => String (lower_char c) (lower s')
  end.

(** [c.isspace()] on a code point below 256 *)
Definition isspace (c : ascii) : bool :=
  let n := nat_of_ascii c in
  (((9 <=? n) && (n <=? 13)) || ((28 <=? n) && (n <=? 32))
   || (n =? 133) || (n =? 160))%nat.

Fixpoint lstrip (s : string) : string :=
  match s with
  | EmptyString => EmptyString
  | String c s' => if isspace c then lstrip s' else s
  end.

(** drops the white space at the end: a character is kept when it is not
    a space or something is kept after it *)
Fixpoint rstrip (s : string) : string :=
  match s with
  | EmptyString => EmptyString
  | String c s' =>
      match rstrip s' with
      | EmptyString => if isspace c then EmptyString else String c EmptyString
      | r => String c r
      end
  end.

(** [s.strip()] *)
Definition strip (s : string) : string := rstrip (lstrip s).

(** [k in s] for strings: [k] is a prefix of [s] or occurs further on *)
Fixpoint contains (k s : string) : bool :=
  prefix k s ||
  match s with
  | EmptyString => false
  | String _ s' => contains k s'
  end.

(** [sep.join(xs)] *)
Fixpoint join (sep : string) (xs : list string) : string :=
  match xs with
  | [] => ""
  | [x] => x
  | x :: xs' => x ++ sep ++ join sep xs'
  end.

(** [a or b] on strings: the empty string is false *)
Definition str_or (a b : string) : string :=
  match a with EmptyString => b | _ => a end.

(** *** float, and the format [.2f] *)

Definition float : Type := spec_float.

(** [m * 2^e * 100] rounded to an integer, ties to even *)
Definition cents (m : positive) (e : Z) : Z :=
  let n := Z.pos m * 100 in
  if 0 <=? e then n * 2 ^ e
  else
    let d := 2 ^ (- e) in
    let q := n / d in
    let r := n mod d in
    if (d <? 2 * r) || ((d =? 2 * r) && Z.odd q) then q + 1 else q.

Definition two_digits (n : Z) : string :=
  str (n / 10) ++ str (n mod 10).

Definition sign_str (s : bool) : string := if s then "-" else "".

(** [f"{x:.2f}"] *)
Definition format_2f (x : float) : string :=
  match x with
  | S754_nan => "nan"
  | S754_infinity s => sign_str s ++ "inf"
  | S754_zero s => sign_str s ++ "0.00"
  | S754_finite s m e =>
      let c := cents m e in
      sign_str s ++ str (c / 100) ++ "." ++ two_digits (c mod 100)
  end.

(** *** what [print_table] uses *)

(** [s * n] for a string *)
Fixpoint mul (s : string) (n : nat) : string :=
  match n with
  | O => ""
  | S n' => s ++ mul s n'
  end.

(** [s.ljust(w)]: spaces are added on the right up to [w] characters *)
Definition ljust (s : string) (w : nat) : string :=
  s ++ mul " " (w - String.length s).

Definition is_nil {A} (l : list A) : bool :=
  match l with [] => true | _ => false end.

(** [zip] of the rows unpacked: one tuple for each position, as long as every row has an
    element there; [n] bounds the number of tuples *)
Fixpoint zip_star_upto (n : nat) (rows : list (list string))
    : list (list string) :=
  match n with
  | O => []
  | S n' =>
      if existsb is_nil rows then []
      else map (hd "") rows :: zip_star_upto n' (map (@tl string) rows)
  end.

(** the first row has a tuple for each of its elements at most *)
Definition zip_star (rows : list (list string)) : list (list string) :=
  match rows with
  | [] => []
  | row :: _ => zip_star_upto (List.length row) rows
  end.

End Py.

(** ** The entity classes *)

Module Category.
Record t : Type := mk { categoryID : Z; name : string }.
End Category.

Module Supplier.
Record t : Type := mk { supplierID : Z; name : string; contactInfo : string }.
End Supplier.

Module InventoryItem.
Record t : Type := mk {
  itemID : Z;
  name : string;
  price : Py.float;
  categoryID : Z;
  supplierID : Z;
  currentStock : Z;
  reorderLevel : Z;
  reorderQty : Z
}.

(** [item.currentStock = v] *)
Definition set_currentStock (v : Z) (it : t) : t :=
  mk (itemID it) (name it) (price it) (categoryID it) (supplierID it)
     v (reorderLevel it) (reorderQty it).

Definition to_row (self : t) : list string :=
  [ Py.str (itemID self);
    name self;
    "$" ++ Py.format_2f (price self);
    Py.str (categoryID self);
    Py.str (supplierID self);
    Py.str (currentStock self);
    Py.str (reorderLevel self);
    Py.str (reorderQty self) ].
End InventoryItem.

Module PurchaseOrder.
Record t : Type := mk {
  orderID : Z;
  orderDate : string;
  supplierID : Z;
  status : string;
  items : Py.dict Z
}.

(** [po.status = v] *)
Definition set_status (v : string) (po : t) : t :=
  mk (orderID po) (orderDate po) (supplierID po) v (items po).

Definition set_items (v : Py.dict Z) (po : t) : t :=
  mk (orderID po) (orderDate po) (supplierID po) (status po) v.

(** [self.items[item_id] = self.items.get(item_id, 0) + max(0, qty)] *)
Definition add_item (item_id qty : Z) (self : t) : t :=
  let old := match Py.get item_id (items self) with
             | Some q => q
             | None => 0
             end in
  set_items (Py.set item_id (old + Z.max 0 qty) (items self)) self.
End PurchaseOrder.

(** ** Exceptions, and the monad of the methods *)

Inductive exn : Type :=
| ValueError (msg : string)
| KeyError (key : Z).

Inductive outcome (A : Type) : Type :=
| Return (a : A)
| Raise (e : exn).
Arguments Return {A} a.
Arguments Raise {A} e.

Module InventorySystem.

(** The four counters hold the next value of their [itertools.count]. *)
Record t : Type := mk {
  _item_id : Z;
  _cat_id : Z;
  _sup_id : Z;
  _po_id : Z;
  categories : Py.dict Category.t;
  suppliers : Py.dict Supplier.t;
  items : Py.dict InventoryItem.t;
  orders : Py.dict PurchaseOrder.t
}.

(** [__init__] *)
Definition init : t := mk 1001 1 1 5001 Py.empty Py.empty Py.empty Py.empty.

Definition M (A : Type) : Type := t -> outcome A * t.

Definition ret {A} (a : A) : M A := fun s => (Return a, s).

Definition raise {A} (e : exn) : M A := fun s => (Raise e, s).

Definition bind {A B} (m : M A) (k : A -> M B) : M B :=
  fun s => match m s with
           | (Return a, s') => k a s'
           | (Raise e, s') => (Raise e, s')
           end.

Definition read {A} (f : t -> A) : M A := fun s => (Return (f s), s).

Definition modify (f : t -> t) : M unit := fun s => (Return tt, f s).

Notation "x <- m ;; k" := (bind m (fun x => k))
  (at level 61, m at next level, right associativity).
Notation "m ;; k" := (bind m (fun _ => k))
  (at level 61, right associativity).

Fixpoint for_each {A} (l : list A) (body : A -> M unit) : M unit :=
  match l with
  | [] => ret tt
  | x :: l' => body x ;; for_each l' body
  end.

(** [d[k]]: a missing key raises [KeyError] *)
Definition getitem {V} (d : t -> Py.dict V) (k : Z) : M V :=
  fun s => match Py.get k (d s) with
           | Some v => (Return v, s)
           | None => (Raise (KeyError k), s)
           end.

(** assignments to the attributes of [self] *)
Definition set_categories (v : Py.dict Category.t) (s : t) : t :=
  mk (_item_id s) (_cat_id s) (_sup_id s) (_po_id s)
     v (suppliers s) (items s) (orders s).
Definition set_suppliers (v : Py.dict Supplier.t) (s : t) : t :=
  mk (_item_id s) (_cat_id s) (_sup_id s) (_po_id s)
     (categories s) v (items s) (orders s).
Definition set_items (v : Py.dict InventoryItem.t) (s : t) : t :=
  mk (_item_id s) (_cat_id s) (_sup_id s) (_po_id s)
     (categories s) (suppliers s) v (orders s).
Definition set_orders (v : Py.dict PurchaseOrder.t) (s : t) : t :=
  mk (_item_id s) (_cat_id s) (_sup_id s) (_po_id s)
     (categories s) (suppliers s) (items s) v.

(** [next(self._item_id)] and the three others *)
Definition next_item_id : M Z :=
  fun s => (Return (_item_id s),
            mk (_item_id s + 1) (_cat_id s) (_sup_id s) (_po_id s)
               (categories s) (suppliers s) (items s) (orders s)).
Definition next_cat_id : M Z :=
  fun s => (Return (_cat_id s),
            mk (_item_id s) (_cat_id s + 1) (_sup_id s) (_po_id s)
               (categories s) (suppliers s) (items s) (orders s)).
Definition next_sup_id : M Z :=
  fun s => (Return (_sup_id s),
            mk (_item_id s) (_cat_id s) (_sup_id s + 1) (_po_id s)
               (categories s) (suppliers s) (items s) (orders s)).
Definition next_po_id : M Z :=
  fun s => (Return (_po_id s),
            mk (_item_id s) (_cat_id s) (_sup_id s) (_po_id s + 1)
               (categories s) (suppliers s) (items s) (orders s)).

(** *** Category / Supplier *)

Definition add_category (name : string) : M Z :=
  cid <- next_cat_id ;;
  modify (fun s => set_categories
                     (Py.set cid (Category.mk cid name) (categories s)) s) ;;
  ret cid.

Definition add_supplier (name contact : string) : M Z :=
  sid <- next_sup_id ;;
  modify (fun s => set_suppliers
                     (Py.set sid (Supplier.mk sid name contact) (suppliers s)) s) ;;
  ret sid.

(** *** Items *)

Definition add_item (name : string) (price : Py.float)
    (category_id supplier_id current_stock reorder_level reorder_qty : Z)
    : M Z :=
  has_cat <- read (fun s => Py.mem category_id (categories s)) ;;
  if negb has_cat then raise (ValueError "Category does not exist") else
  has_sup <- read (fun s => Py.mem supplier_id (suppliers s)) ;;
  if negb has_sup then raise (ValueError "Supplier does not exist") else
  iid <- next_item_id ;;
  modify (fun s => set_items
    (Py.set iid
       (InventoryItem.mk iid name price category_id supplier_id
          (Z.max 0 current_stock) (Z.max 0 reorder_level)
          (Z.max 1 reorder_qty))
       (items s)) s) ;;
  ret iid.

Definition search_items (keyword : string) : M (list InventoryItem.t) :=
  let k := Py.strip (Py.lower keyword) in
  read (fun s =>
    filter (fun it => Py.contains k (Py.lower (InventoryItem.name it)))
           (Py.values (items s))).

Definition add_stock (item_id qty : Z) : M unit :=
  has <- read (fun s => Py.mem item_id (items s)) ;;
  if negb has then raise (ValueError "Item not found") else
  item <- getitem items item_id ;;
  modify (fun s => set_items
    (Py.alter (InventoryItem.set_currentStock
                 (InventoryItem.currentStock item + Z.max 0 qty))
              item_id (items s)) s).

Definition consume_stock (item_id qty : Z) : M bool :=
  has <- read (fun s => Py.mem item_id (items s)) ;;
  if negb has then raise (ValueError "Item not found") else
  let qty := Z.max 0 qty in
  item <- getitem items item_id ;;
  if InventoryItem.currentStock item >=? qty then
    modify (fun s => set_items
      (Py.alter (InventoryItem.set_currentStock
                   (InventoryItem.currentStock item - qty))
                item_id (items s)) s) ;;
    ret true
  else ret false.

Definition low_stock_items : M (list InventoryItem.t) :=
  read (fun s =>
    filter (fun it => InventoryItem.currentStock it
                      <=? InventoryItem.reorderLevel it)
           (Py.values (items s))).

(** *** Purchase orders; [today] is [datetime.now().strftime("%Y-%m-%d")] *)

Definition create_purchase_order (today : string) (supplier_id : Z) : M Z :=
  has <- read (fun s => Py.mem supplier_id (suppliers s)) ;;
  if negb has then raise (ValueError "Supplier not found") else
  oid <- next_po_id ;;
  let po := PurchaseOrder.mk oid today supplier_id "OPEN" Py.empty in
  modify (fun s => set_orders (Py.set oid po (orders s)) s) ;;
  ret oid.

Definition create_order_for_item (today : string) (item_id : Z)
    (qty : option Z) : M Z :=
  has <- read (fun s => Py.mem item_id (items s)) ;;
  if negb has then raise (ValueError "Item not found") else
  item <- getitem items item_id ;;
  po_id <- create_purchase_order today (InventoryItem.supplierID item) ;;
  _ <- getitem orders po_id ;;
  modify (fun s => set_orders
    (Py.alter (PurchaseOrder.add_item item_id
                 (match qty with
                  | Some q => q
                  | None => InventoryItem.reorderQty item
                  end))
              po_id (orders s)) s) ;;
  ret po_id.

Definition _get_order (order_id : Z) : M PurchaseOrder.t :=
  has <- read (fun s => Py.mem order_id (orders s)) ;;
  if negb has then raise (ValueError "Order not found") else
  getitem orders order_id.

(** [po.status = v], [po] being the object stored under [order_id] *)
Definition set_order_status (order_id : Z) (v : string) : M unit :=
  modify (fun s => set_orders
    (Py.alter (PurchaseOrder.set_status v) order_id (orders s)) s).

Definition submit_order (order_id : Z) : M unit :=
  _ <- _get_order order_id ;;
  set_order_status order_id "SUBMITTED".

Definition receive_line (line : Z * Z) : M unit :=
  let '(item_id, qty) := line in
  has <- read (fun s => Py.mem item_id (items s)) ;;
  if has then
    item <- getitem items item_id ;;
    modify (fun s => set_items
      (Py.alter (InventoryItem.set_currentStock
                   (InventoryItem.currentStock item + qty))
                item_id (items s)) s)
  else ret tt.

Definition receive_order (order_id : Z) : M unit :=
  po <- _get_order order_id ;;
  for_each (Py.items (PurchaseOrder.items po)) receive_line ;;
  set_order_status order_id "RECEIVED".

Definition cancel_order (order_id : Z) : M unit :=
  _ <- _get_order order_id ;;
  set_order_status order_id "CANCELED".

(** *** Reporting *)

Definition inventory_header : list string :=
  ["ID"; "Item"; "Price"; "CatID"; "SupID"; "Stock"; "Reorder"; "ReorderQty"].

Definition inventory_table : M (list (list string)) :=
  read (fun s =>
    inventory_header ::
    map InventoryItem.to_row
        (Py.sorted InventoryItem.itemID (Py.values (items s)))).

Definition orders_header : list string :=
  ["OrderID"; "Date"; "SupplierID"; "Status"; "Lines (itemID:qty)"].

Definition line_str (line : Z * Z) : string :=
  Py.str (fst line) ++ ":" ++ Py.str (snd line).

Definition order_row (po : PurchaseOrder.t) : list string :=
  let lines :=
    Py.str_or
      (Py.join ", " (map line_str (Py.items (PurchaseOrder.items po))))
      "-" in
  [ Py.str (PurchaseOrder.orderID po);
    PurchaseOrder.orderDate po;
    Py.str (PurchaseOrder.supplierID po);
    PurchaseOrder.status po;
    lines ].

Definition orders_table : M (list (list string)) :=
  read (fun s =>
    orders_header ::
    map order_row (Py.sorted PurchaseOrder.orderID (Py.values (orders s)))).

End InventorySystem.

(** ** Sequences of calls on one [InventorySystem] *)

(** A call of a public method of [InventorySystem] with its arguments. *)
Inductive call : Type :=
| Add_category (name : string)
| Add_supplier (name contact : string)
| Add_item (name : string) (price : Py.float)
    (category_id supplier_id current_stock reorder_level reorder_qty : Z)
| Search_items (keyword : string)
| Add_stock (item_id qty : Z)
| Consume_stock (item_id qty : Z)
| Low_stock_items
| Create_purchase_order (today : string) (supplier_id : Z)
| Create_order_for_item (today : string) (item_id : Z) (qty : option Z)
| Submit_order (order_id : Z)
| Receive_order (order_id : Z)
| Cancel_order (order_id : Z)
| Inventory_table
| Orders_table.

Module Session.
Import InventorySystem.

(** the value a call returns is dropped, its exception is kept *)
Definition discard {A} (m : M A) : M unit :=
  fun s => match m s with
           | (Return _, s') => (Return tt, s')
           | (Raise e, s') => (Raise e, s')
           end.

Definition perform (c : call) : M unit :=
  match c with
  | Add_category n => discard (add_category n)
  | Add_supplier n ct => discard (add_supplier n ct)
  | Add_item n p c s cs rl rq => discard (add_item n p c s cs rl rq)
  | Search_items k => discard (search_items k)
  | Add_stock i q => add_stock i q
  | Consume_stock i q => discard (consume_stock i q)
  | Low_stock_items => discard low_stock_items
  | Create_purchase_order d sid => discard (create_purchase_order d sid)
  | Create_order_for_item d i q => discard (create_order_for_item d i q)
  | Submit_order o => submit_order o
  | Receive_order o => receive_order o
  | Cancel_order o => cancel_order o
  | Inventory_table => discard inventory_table
  | Orders_table => discard orders_table
  end.

(** the state after a call, whether it returned or raised *)
Definition after (c : call) (s : t) : t := snd (perform c s).

(** the calls are made one after the other; a caller that catches an
    exception goes on with the state the call left *)
Definition run (cs : list call) (s : t) : t :=
  fold_left (fun s c => after c s) cs s.

(** the states a sequence of calls reaches from a new [InventorySystem] *)
Inductive reachable : t -> Prop :=
| reach_init : reachable init
| reach_call c s : reachable s -> reachable (after c s).

End Session.

Definition price_1_20 : Py.float := S754_finite false 0x13333333333333 (-52).

Definition demo : list call :=
  [ Add_category "Beverage"; Add_supplier "Main" "main";
    Add_item "Milk" price_1_20 1 1 12 8 12;
    Consume_stock 1001 5;
    Create_order_for_item "2024-01-01" 1001 None;
    Submit_order 5001; Receive_order 5001 ].

(** ** Steps that include the lines of a stored order *)

(** [inv.orders[order_id].add_item(item_id, qty)]: [add_item] of the order
    stored under [order_id]; with no such order the access raises
    [KeyError] and nothing changes. *)
Definition add_line (order_id item_id qty : Z) : InventorySystem.M unit :=
  InventorySystem.bind
    (InventorySystem.getitem InventorySystem.orders order_id)
    (fun _ =>
       InventorySystem.modify
         (fun s => InventorySystem.set_orders
                     (Py.alter (PurchaseOrder.add_item item_id qty) order_id
                               (InventorySystem.orders s)) s)).

(** A step: a call of a method of [InventorySystem], or [add_item] of a
    stored order. *)
Inductive action : Type :=
| Call (c : call)
| Add_line (order_id item_id qty : Z).

Definition act (a : action) (s : InventorySystem.t) : InventorySystem.t :=
  match a with
  | Call c => Session.after c s
  | Add_line order_id item_id qty => snd (add_line order_id item_id qty s)
  end.

Definition run_actions (l : list action) (s : InventorySystem.t)
    : InventorySystem.t :=
  fold_left (fun s a => act a s) l s.

(** the states that steps reach from a new [InventorySystem] *)
Inductive reachable_by_actions : InventorySystem.t -> Prop :=
| by_init : reachable_by_actions InventorySystem.init
| by_act a s : reachable_by_actions s -> reachable_by_actions (act a s).

(** ** The table printer *)

(** What [print_table] raises: [widths[i]] with [i] out of range. *)
Inductive table_exn : Type := IndexError.

(** the greatest [len(str(col))] of each tuple of [zip] of the rows *)
Definition widths (rows : list (list string)) : list nat :=
  map (fun col_vals => list_max (map String.length col_vals)) (Py.zip_star rows).

(** [str(val).ljust(widths[i]) for i, val in enumerate(row)], from index [i] *)
Fixpoint cells_from (ws : list nat) (i : nat) (row : list string)
    : option (list string) :=
  match row with
  | [] => Some []
  | val :: row' =>
      match nth_error ws i with
      | None => None
      | Some w => option_map (cons (Py.ljust val w)) (cells_from ws (S i) row')
      end
  end.

(** the loop over [enumerate(rows)], from row [r]: the lines printed, and
    the exception that ended the loop if one did *)
Fixpoint print_rows (ws : list nat) (r : nat) (rows : list (list string))
    : list string * option table_exn :=
  match rows with
  | [] => ([], None)
  | row :: rows' =>
      match cells_from ws 0 row with
      | None => ([], Some IndexError)
      | Some cells =>
          let line := Py.join " | " cells in
          let printed :=
            if (r =? 0)%nat
            then [line; Py.join "-+-" (map (Py.mul "-") ws)]
            else [line] in
          let (rest, e) := print_rows ws (S r) rows' in
          ((printed ++ rest)%list, e)
      end
  end.

Definition print_table (rows : list (list string))
    : list string * option table_exn :=
  match rows with
  | [] => (["(no data)"], None)
  | _ => print_rows (widths rows) 0 rows
  end.

(** ** The demonstration data and two actions of the menu *)

(** [seed_demo_data]: the identifiers the calls return are the ones the
    later calls are given *)
Definition seed_demo_data : list call :=
  [ Add_category "Food"; Add_category "Beverage"; Add_category "Supply";
    Add_supplier "Main Distributor" "sales@maindist.com / (555) 123-4567";
    Add_supplier "Sunrise Bakery" "orders@sunrise.com / (555) 222-3456";
    Add_item "Espresso Beans (1kg)" (S754_finite false 0x10800000000000 (-48))
             2 1 8 5 6;
    Add_item "Milk (1L)" (S754_finite false 0x13333333333333 (-52)) 2 1 12 8 12;
    Add_item "Croissant" (S754_finite false 0x13333333333333 (-51)) 1 2 6 6 24;
    Add_item "Sugar Packets (box)" (S754_finite false 0x13f5c28f5c28f6 (-50))
             3 1 3 5 10;
    Add_item "Cups (100ct)" (S754_finite false 0x1bf5c28f5c28f6 (-50))
             3 1 15 10 10 ].

Definition seeded : InventorySystem.t :=
  Session.run seed_demo_data InventorySystem.init.

(** choice 7 of [main]: [create_order_for_item] and [submit_order] *)
Definition order_and_submit (today : string) (item_id : Z) (qty : option Z)
    : InventorySystem.M Z :=
  InventorySystem.bind (InventorySystem.create_order_for_item today item_id qty)
    (fun poid =>
       InventorySystem.bind (InventorySystem.submit_order poid)
         (fun _ => InventorySystem.ret poid)).

(** an order for an item with its default quantity, submitted and then
    received: choice 7 with a blank quantity, then choice 9 *)
Definition restock (today : string) (item_id : Z) : InventorySystem.M Z :=
  InventorySystem.bind (order_and_submit today item_id None)
    (fun poid =>
       InventorySystem.bind (InventorySystem.receive_order poid)
         (fun _ => InventorySystem.ret poid)).

(** choice 6 of [main] answered "y": an order with the default quantity
    for each low item, then all of them submitted; [today n] is the date
    read when the order number [n] is created *)
Fixpoint create_all (today : nat -> string) (n : nat)
    (low : list InventoryItem.t) : InventorySystem.M (list Z) :=
  match low with
  | [] => InventorySystem.ret []
  | it :: low' =>
      InventorySystem.bind
        (InventorySystem.create_order_for_item (today n)
           (InventoryItem.itemID it) None)
        (fun po_id =>
           InventorySystem.bind (create_all today (S n) low')
             (fun created => InventorySystem.ret (po_id :: created)))
  end.

Definition reorder_low (today : nat -> string) : InventorySystem.M nat :=
  InventorySystem.bind InventorySystem.low_stock_items
    (fun low =>
       InventorySystem.bind (create_all today 0 low)
         (fun created =>
            InventorySystem.bind
              (InventorySystem.for_each created InventorySystem.submit_order)
              (fun _ => InventorySystem.ret (List.length created)))).

(** ** Definitions the statements use *)

(** The kinds of failure of the specification.  The source raises
    [ValueError] everywhere; the message tells the entity that is missing:
    a category or a supplier (a reference that does not resolve), or an
    item or an order (an identifier that is not found). *)
Inductive error_kind : Type := ReferenceError | NotFoundError.

Definition kind_of (e : exn) : option error_kind :=
  match e with
  | ValueError msg =>
      if (msg =? "Category does not exist")%string then Some ReferenceError
      else if (msg =? "Supplier does not exist")%string then Some ReferenceError
      else if (msg =? "Supplier not found")%string then Some ReferenceError
      else if (msg =? "Item not found")%string then Some NotFoundError
      else if (msg =? "Order not found")%string then Some NotFoundError
      else None
  | KeyError _ => None
  end.

(** What the loop of [receive_order] does to the item dictionary: one line
    after the other, the quantity goes to the stock of the item when the
    item is in the catalog. *)
Definition receive_one (d : Py.dict InventoryItem.t) (line : Z * Z)
    : Py.dict InventoryItem.t :=
  match Py.get (fst line) d with
  | Some item =>
      Py.alter (InventoryItem.set_currentStock
                  (InventoryItem.currentStock item + snd line))
               (fst line) d
  | None => d
  end.

Definition received (lines : list (Z * Z)) (d : Py.dict InventoryItem.t)
    : Py.dict InventoryItem.t :=
  fold_left receive_one lines d.

(** No stock is negative. *)
Definition stock_ok (s : InventorySystem.t) : Prop :=
  Forall (fun it => 0 <= InventoryItem.currentStock it)
         (Py.values (InventorySystem.items s)).

(** No order line has a negative quantity. *)
Definition lines_ok (s : InventorySystem.t) : Prop :=
  Forall (fun po => Forall (fun qty => 0 <= qty)
                           (Py.values (PurchaseOrder.items po)))
         (Py.values (InventorySystem.orders s)).

(** The supplier and the category of every item are registered. *)
Definition refs_ok (s : InventorySystem.t) : Prop :=
  Forall (fun it =>
            Py.mem (InventoryItem.supplierID it) (InventorySystem.suppliers s) = true
            /\ Py.mem (InventoryItem.categoryID it) (InventorySystem.categories s) = true)
         (Py.values (InventorySystem.items s)).

(** [k] occurs in [s] as a substring. *)
Definition occurs_in (k s : string) : Prop :=
  exists pre suf, s = pre ++ k ++ suf.

(** An amount of money with two decimals: the dollar sign, a minus sign or
    none, one digit or more, the point, and two digits. *)
Definition is_digit (c : ascii) : bool :=
  ((48 <=? nat_of_ascii c) && (nat_of_ascii c <=? 57))%nat.

Fixpoint all_digits (s : string) : bool :=
  match s with
  | EmptyString => true
  | String c s' => is_digit c && all_digits s'
  end.

Fixpoint amount (seen : bool) (s : string) : bool :=
  match s with
  | EmptyString => false
  | String c s' =>
      if is_digit c then amount true s'
      else if (c =? ".")%char then
        seen && match s' with
                | String d1 (String d2 EmptyString) => is_digit d1 && is_digit d2
                | _ => false
                end
      else false
  end.

Definition currency_two_decimals (cell : string) : bool :=
  match cell with
  | String "$" (String "-" r) => amount false r
  | String "$" r => amount false r
  | _ => false
  end.

(** A float that is a number: not NaN, not an infinity. *)
Definition finite (x : Py.float) : bool :=
  match x with
  | S754_zero _ | S754_finite _ _ _ => true
  | S754_infinity _ | S754_nan => false
  end.

(** A catalog of one item, "Box". *)
Definition box_calls : list call :=
  [ Add_category "Supply"; Add_supplier "Main" "main";
    Add_item "Box" price_1_20 1 1 3 5 10 ].

(** A catalog of one item whose price is NaN, as [float("nan")] gives. *)
Definition nan_calls : list call :=
  [ Add_category "Supply"; Add_supplier "Main" "main";
    Add_item "Cups" S754_nan 1 1 3 5 10 ].

(** Two items, and an order for them with the lines {1001: 5, 1002: 3}:
    the order is made by [create_purchase_order], the lines by
    [add_item] of the order, called twice. *)
Definition two_line_calls : list call :=
  [ Add_category "Beverage"; Add_supplier "Main" "main";
    Add_item "Milk" price_1_20 1 1 12 8 12;
    Add_item "Tea" price_1_20 1 1 2 8 12;
    Create_purchase_order "2024-01-01" 1 ].

Definition two_line_state : InventorySystem.t :=
  let s := Session.run two_line_calls InventorySystem.init in
  InventorySystem.set_orders
    (Py.alter (fun po => PurchaseOrder.add_item 1002 3
                           (PurchaseOrder.add_item 1001 5 po))
              5001 (InventorySystem.orders s)) s.

(** A dictionary whose keys come from a counter: the keys are in
    ascending order, at least [lo] and below the next value of the
    counter, and the object under a key has the key as its identifier. *)
Definition well_keyed {V} (idf : V -> Z) (lo next : Z) (d : Py.dict V) : Prop :=
  lo <= next
  /\ StronglySorted Z.lt (map fst d)
  /\ Forall (fun kv => (lo <= fst kv < next) /\ idf (snd kv) = fst kv) d.

Definition ids_ok (s : InventorySystem.t) : Prop :=
  well_keyed Category.categoryID 1
             (InventorySystem._cat_id s) (InventorySystem.categories s)
  /\ well_keyed Supplier.supplierID 1
                (InventorySystem._sup_id s) (InventorySystem.suppliers s)
  /\ well_keyed InventoryItem.itemID 1001
                (InventorySystem._item_id s) (InventorySystem.items s)
  /\ well_keyed PurchaseOrder.orderID 5001
                (InventorySystem._po_id s) (InventorySystem.orders s).

(** The reorder level of every item is at least 0, its reorder quantity at
    least 1. *)
Definition levels_ok (s : InventorySystem.t) : Prop :=
  Forall (fun it => 0 <= InventoryItem.reorderLevel it
                    /\ 1 <= InventoryItem.reorderQty it)
         (Py.values (InventorySystem.items s)).

Definition is_status (st : string) : Prop :=
  st = "OPEN" \/ st = "SUBMITTED" \/ st = "RECEIVED" \/ st = "CANCELED".

(** An order as the methods of [InventorySystem] make it: one of the four
    statuses, a registered supplier, one line at most, for a stored item. *)
Definition order_ok (sups : Py.dict Supplier.t) (its : Py.dict InventoryItem.t)
    (po : PurchaseOrder.t) : Prop :=
  is_status (PurchaseOrder.status po)
  /\ Py.mem (PurchaseOrder.supplierID po) sups = true
  /\ (List.length (PurchaseOrder.items po) <= 1)%nat
  /\ Forall (fun line => Py.mem (fst line) its = true) (PurchaseOrder.items po).

Definition orders_ok (s : InventorySystem.t) : Prop :=
  Forall (order_ok (InventorySystem.suppliers s) (InventorySystem.items s))
         (Py.values (InventorySystem.orders s)).

Definition shape_ok (s : InventorySystem.t) : Prop :=
  ids_ok s /\ levels_ok s /\ orders_ok s.

(** The quantity an order line list has for an item, 0 when it has none. *)
Definition line_qty (lines : Py.dict Z) (item_id : Z) : Z :=
  match Py.get item_id lines with
  | Some q => q
  | None => 0
  end.

(** The orders that choice 6 makes for the items [low], numbered from
    [oid], with the status [st]. *)
Fixpoint new_orders (today : nat -> string) (n : nat) (oid : Z) (st : string)
    (low : list InventoryItem.t) : Py.dict PurchaseOrder.t :=
  match low with
  | [] => []
  | it :: low' =>
      (oid, PurchaseOrder.mk oid (today n) (InventoryItem.supplierID it) st
              [(InventoryItem.itemID it, InventoryItem.reorderQty it)])
      :: new_orders today (S n) (oid + 1) st low'
  end.

(** The stock of the item stored under a key, the status of the order
    stored under a key. *)
Definition stock_at (d : Py.dict InventoryItem.t) (k : Z) : option Z :=
  option_map InventoryItem.currentStock (Py.get k d).

Definition status_at (d : Py.dict PurchaseOrder.t) (k : Z) : option string :=
  option_map PurchaseOrder.status (Py.get k d).

(** [it'] is [it] but for its stock. *)
Definition same_but_stock (it it' : InventoryItem.t) : Prop :=
  InventoryItem.itemID it' = InventoryItem.itemID it
  /\ InventoryItem.name it' = InventoryItem.name it
  /\ InventoryItem.price it' = InventoryItem.price it
  /\ InventoryItem.categoryID it' = InventoryItem.categoryID it
  /\ InventoryItem.supplierID it' = InventoryItem.supplierID it
  /\ InventoryItem.reorderLevel it' = InventoryItem.reorderLevel it
  /\ InventoryItem.reorderQty it' = InventoryItem.reorderQty it.

(** [po'] has the identifier, the date and the supplier of [po]. *)
Definition same_order_head (po po' : PurchaseOrder.t) : Prop :=
  PurchaseOrder.orderID po' = PurchaseOrder.orderID po
  /\ PurchaseOrder.orderDate po' = PurchaseOrder.orderDate po
  /\ PurchaseOrder.supplierID po' = PurchaseOrder.supplierID po.

(** The status of an order is one of the four and its supplier is
    registered. *)
Definition head_ok (sups : Py.dict Supplier.t) (po : PurchaseOrder.t) : Prop :=
  is_status (PurchaseOrder.status po)
  /\ Py.mem (PurchaseOrder.supplierID po) sups = true.

Definition core_ok (s : InventorySystem.t) : Prop :=
  ids_ok s /\ levels_ok s
  /\ Forall (head_ok (InventorySystem.suppliers s))
            (Py.values (InventorySystem.orders s)).

(** The steps that make [two_line_state], and three more steps on it. *)
Definition two_line_actions : list action :=
  (map Call two_line_calls
   ++ [Add_line 5001 1001 5; Add_line 5001 1002 3])%list.

Definition later_actions : list action :=
  [ Add_line 5001 1001 4; Call (Cancel_order 5001);
    Call (Consume_stock 1002 1) ].

(** What every call keeps. *)
Definition inv (s : InventorySystem.t) : Prop :=
  stock_ok s /\ lines_ok s /\ refs_ok s.

(** ** Facts about the built-ins *)

Section DictFacts.
Context {V : Type}.
Implicit Types (d : Py.dict V) (k : Z) (v : V).

Lemma mem_get d k : Py.mem k d = true <-> exists v, Py.get k d = Some v.
Proof.
  unfold Py.mem. destruct (Py.get k d) as [v|]; split.
  - eauto.
  - reflexivity.
  - discriminate.
  - intros [v H]; discriminate.
Qed.

Lemma mem_false_get d k : Py.mem k d = false <-> Py.get k d = None.
Proof.
  unfold Py.mem. destruct (Py.get k d); split; congruence.
Qed.

Lemma get_set_eq d k v : Py.get k (Py.set k v d) = Some v.
Proof.
  induction d as [|[k' v'] d IH]; simpl.
  - now rewrite Z.eqb_refl.
  - destruct (k =? k') eqn:E; simpl; rewrite E; auto.
Qed.

Lemma get_set_ne d k k0 v : k0 <> k -> Py.get k0 (Py.set k v d) = Py.get k0 d.
Proof.
  intros Hne. induction d as [|[k' v'] d IH]; simpl.
  - apply Z.eqb_neq in Hne. now rewrite Hne.
  - destruct (k =? k') eqn:E; simpl.
    + apply Z.eqb_eq in E. subst k'.
      apply Z.eqb_neq in Hne. now rewrite Hne.
    + now rewrite IH.
Qed.

Lemma get_alter_eq f d k : Py.get k (Py.alter f k d) = option_map f (Py.get k d).
Proof.
  induction d as [|[k' v'] d IH]; simpl; auto.
  destruct (k =? k') eqn:E; simpl; rewrite E; auto.
Qed.

Lemma get_alter_ne f d k k0 :
  k0 <> k -> Py.get k0 (Py.alter f k d) = Py.get k0 d.
Proof.
  intros Hne. induction d as [|[k' v'] d IH]; simpl; auto.
  destruct (k =? k') eqn:E; simpl.
  - apply Z.eqb_eq in E. subst k'.
    apply Z.eqb_neq in Hne. now rewrite Hne.
  - now rewrite IH.
Qed.

Lemma mem_set d k k0 v : Py.mem k0 d = true -> Py.mem k0 (Py.set k v d) = true.
Proof.
  intros H. apply mem_get. destruct (Z.eq_dec k0 k) as [->|Hne].
  - rewrite get_set_eq. eauto.
  - rewrite get_set_ne by assumption. now apply mem_get.
Qed.

Lemma mem_alter f d k k0 : Py.mem k0 (Py.alter f k d) = Py.mem k0 d.
Proof.
  unfold Py.mem. destruct (Z.eq_dec k0 k) as [->|Hne].
  - rewrite get_alter_eq. now destruct (Py.get k d).
  - now rewrite get_alter_ne.
Qed.

(** altering by a function that gives back the stored object changes
    nothing *)
Lemma alter_same f d k v :
  Py.get k d = Some v -> f v = v -> Py.alter f k d = d.
Proof.
  induction d as [|[k' v'] d IH]; simpl; auto.
  destruct (k =? k') eqn:E; intros Hg Hf.
  - injection Hg as ->. now rewrite Hf.
  - now rewrite IH.
Qed.

Lemma alter_alter f g d k :
  Py.alter f k (Py.alter g k d) = Py.alter (fun x => f (g x)) k d.
Proof.
  induction d as [|[k' v'] d IH]; simpl; auto.
  destruct (k =? k') eqn:E; simpl; rewrite E; [reflexivity | now rewrite IH].
Qed.

Lemma get_In_values d k v : Py.get k d = Some v -> In v (Py.values d).
Proof.
  induction d as [|[k' v'] d IH]; simpl; [discriminate|].
  destruct (k =? k'); intros H.
  - injection H as ->. now left.
  - right. now apply IH.
Qed.

Lemma Forall_values_set (P : V -> Prop) d k v :
  P v -> Forall P (Py.values d) -> Forall P (Py.values (Py.set k v d)).
Proof.
  intros Hv. induction d as [|[k' v'] d IH]; simpl; intros H.
  - constructor; auto.
  - inversion H; subst. destruct (k =? k'); simpl; constructor; auto.
Qed.

(** only the object under [k] has to be looked at *)
Lemma Forall_values_alter (P : V -> Prop) f d k :
  (forall v, Py.get k d = Some v -> P (f v)) ->
  Forall P (Py.values d) -> Forall P (Py.values (Py.alter f k d)).
Proof.
  induction d as [|[k' v'] d IH]; simpl; intros Hf H; auto.
  inversion H; subst. destruct (k =? k') eqn:E; simpl; constructor; auto.
Qed.

End DictFacts.

Section SortedFacts.
Context {A : Type} (key : A -> Z).

Lemma insert_by_perm x l : Permutation (x :: l) (Py.insert_by key x l).
Proof.
  induction l as [|y ys IH]; simpl.
  - apply Permutation_refl.
  - destruct (key x <=? key y).
    + apply Permutation_refl.
    + eapply perm_trans; [apply perm_swap|]. now apply perm_skip.
Qed.

Lemma sorted_perm l : Permutation l (Py.sorted key l).
Proof.
  induction l as [|x l IH]; simpl.
  - constructor.
  - eapply perm_trans; [|apply insert_by_perm]. now apply perm_skip.
Qed.

Lemma insert_by_sorted x l :
  Sorted Z.le (map key l) -> Sorted Z.le (map key (Py.insert_by key x l)).
Proof.
  induction l as [|y ys IH]; simpl; intros H.
  - repeat constructor.
  - destruct (key x <=? key y) eqn:E; simpl.
    + constructor; [assumption|]. constructor. now apply Z.leb_le.
    + apply Z.leb_gt in E. inversion H as [|? ? Hs Hh]; subst.
      constructor; [now apply IH|].
      destruct ys as [|z zs]; simpl.
      * constructor. lia.
      * destruct (key x <=? key z); constructor; [lia|].
        now inversion Hh.
Qed.

Lemma sorted_sorted l : Sorted Z.le (map key (Py.sorted key l)).
Proof.
  induction l as [|x l IH]; simpl.
  - constructor.
  - now apply insert_by_sorted.
Qed.

End SortedFacts.

(** ** What each method computes *)

Section MethodEquations.
Import InventorySystem.

Ltac run := unfold bind, read, raise, ret, modify, getitem; simpl.

Lemma add_category_eq name s :
  add_category name s =
  (Return (_cat_id s),
   mk (_item_id s) (_cat_id s + 1) (_sup_id s) (_po_id s)
      (Py.set (_cat_id s) (Category.mk (_cat_id s) name) (categories s))
      (suppliers s) (items s) (orders s)).
Proof. reflexivity. Qed.

Lemma add_supplier_eq name contact s :
  add_supplier name contact s =
  (Return (_sup_id s),
   mk (_item_id s) (_cat_id s) (_sup_id s + 1) (_po_id s)
      (categories s)
      (Py.set (_sup_id s) (Supplier.mk (_sup_id s) name contact) (suppliers s))
      (items s) (orders s)).
Proof. reflexivity. Qed.

Lemma add_item_eq name price c sp cs rl rq s :
  add_item name price c sp cs rl rq s =
  if negb (Py.mem c (categories s))
  then (Raise (ValueError "Category does not exist"), s)
  else if negb (Py.mem sp (suppliers s))
  then (Raise (ValueError "Supplier does not exist"), s)
  else
    (Return (_item_id s),
     mk (_item_id s + 1) (_cat_id s) (_sup_id s) (_po_id s)
        (categories s) (suppliers s)
        (Py.set (_item_id s)
           (InventoryItem.mk (_item_id s) name price c sp
              (Z.max 0 cs) (Z.max 0 rl) (Z.max 1 rq))
           (items s))
        (orders s)).
Proof.
  unfold add_item. run.
  destruct (Py.mem c (categories s)); simpl; [|reflexivity].
  destruct (Py.mem sp (suppliers s)); reflexivity.
Qed.

Lemma add_stock_eq item_id qty s :
  add_stock item_id qty s =
  match Py.get item_id (items s) with
  | None => (Raise (ValueError "Item not found"), s)
  | Some item =>
      (Return tt,
       set_items
         (Py.alter (InventoryItem.set_currentStock
                      (InventoryItem.currentStock item + Z.max 0 qty))
                   item_id (items s)) s)
  end.
Proof.
  unfold add_stock, Py.mem. run.
  destruct (Py.get item_id (items s)) eqn:E; simpl; [|reflexivity].
  now rewrite E.
Qed.

Lemma consume_stock_eq item_id qty s :
  consume_stock item_id qty s =
  match Py.get item_id (items s) with
  | None => (Raise (ValueError "Item not found"), s)
  | Some item =>
      if InventoryItem.currentStock item >=? Z.max 0 qty
      then (Return true,
            set_items
              (Py.alter (InventoryItem.set_currentStock
                           (InventoryItem.currentStock item - Z.max 0 qty))
                        item_id (items s)) s)
      else (Return false, s)
  end.
Proof.
  unfold consume_stock, Py.mem. run.
  destruct (Py.get item_id (items s)) as [item|] eqn:E; simpl; [|reflexivity].
  rewrite E.
  destruct (InventoryItem.currentStock item >=? Z.max 0 qty); reflexivity.
Qed.

Lemma create_purchase_order_eq today supplier_id s :
  create_purchase_order today supplier_id s =
  if negb (Py.mem supplier_id (suppliers s))
  then (Raise (ValueError "Supplier not found"), s)
  else
    (Return (_po_id s),
     mk (_item_id s) (_cat_id s) (_sup_id s) (_po_id s + 1)
        (categories s) (suppliers s) (items s)
        (Py.set (_po_id s)
           (PurchaseOrder.mk (_po_id s) today supplier_id "OPEN" Py.empty)
           (orders s))).
Proof.
  unfold create_purchase_order. run.
  destruct (Py.mem supplier_id (suppliers s)); reflexivity.
Qed.

Lemma create_order_for_item_eq today item_id qty s :
  create_order_for_item today item_id qty s =
  match Py.get item_id (items s) with
  | None => (Raise (ValueError "Item not found"), s)
  | Some item =>
      if negb (Py.mem (InventoryItem.supplierID item) (suppliers s))
      then (Raise (ValueError "Supplier not found"), s)
      else
        (Return (_po_id s),
         mk (_item_id s) (_cat_id s) (_sup_id s) (_po_id s + 1)
            (categories s) (suppliers s) (items s)
            (Py.alter
               (PurchaseOrder.add_item item_id
                  (match qty with
                   | Some q => q
                   | None => InventoryItem.reorderQty item
                   end))
               (_po_id s)
               (Py.set (_po_id s)
                  (PurchaseOrder.mk (_po_id s) today
                     (InventoryItem.supplierID item) "OPEN" Py.empty)
                  (orders s))))
  end.
Proof.
  unfold create_order_for_item, Py.mem at 1. run.
  destruct (Py.get item_id (items s)) as [item|] eqn:E; simpl; [|reflexivity].
  rewrite E, create_purchase_order_eq.
  destruct (Py.mem (InventoryItem.supplierID item) (suppliers s)); simpl;
    [|reflexivity].
  now rewrite get_set_eq.
Qed.

Lemma _get_order_eq order_id s :
  _get_order order_id s =
  match Py.get order_id (orders s) with
  | None => (Raise (ValueError "Order not found"), s)
  | Some po => (Return po, s)
  end.
Proof.
  unfold _get_order, Py.mem. run.
  destruct (Py.get order_id (orders s)) eqn:E; simpl; [|reflexivity].
  now rewrite E.
Qed.

Lemma submit_order_eq order_id s :
  submit_order order_id s =
  match Py.get order_id (orders s) with
  | None => (Raise (ValueError "Order not found"), s)
  | Some _ =>
      (Return tt,
       set_orders
         (Py.alter (PurchaseOrder.set_status "SUBMITTED") order_id (orders s)) s)
  end.
Proof.
  unfold submit_order, bind. rewrite _get_order_eq.
  destruct (Py.get order_id (orders s)); reflexivity.
Qed.

Lemma cancel_order_eq order_id s :
  cancel_order order_id s =
  match Py.get order_id (orders s) with
  | None => (Raise (ValueError "Order not found"), s)
  | Some _ =>
      (Return tt,
       set_orders
         (Py.alter (PurchaseOrder.set_status "CANCELED") order_id (orders s)) s)
  end.
Proof.
  unfold cancel_order, bind. rewrite _get_order_eq.
  destruct (Py.get order_id (orders s)); reflexivity.
Qed.

Lemma receive_line_eq line s :
  receive_line line s = (Return tt, set_items (receive_one (items s) line) s).
Proof.
  destruct line as [item_id qty]. unfold receive_line, receive_one, Py.mem. run.
  destruct (Py.get item_id (items s)) eqn:E; simpl.
  - now rewrite E.
  - now destruct s.
Qed.

Lemma for_each_receive_eq lines s :
  for_each lines receive_line s =
  (Return tt, set_items (received lines (items s)) s).
Proof.
  revert s. induction lines as [|line lines IH]; intros s; simpl.
  - unfold ret. now destruct s.
  - unfold bind. rewrite receive_line_eq, IH. reflexivity.
Qed.

Lemma receive_order_eq order_id s :
  receive_order order_id s =
  match Py.get order_id (orders s) with
  | None => (Raise (ValueError "Order not found"), s)
  | Some po =>
      (Return tt,
       mk (_item_id s) (_cat_id s) (_sup_id s) (_po_id s)
          (categories s) (suppliers s)
          (received (Py.items (PurchaseOrder.items po)) (items s))
          (Py.alter (PurchaseOrder.set_status "RECEIVED") order_id (orders s)))
  end.
Proof.
  unfold receive_order, bind. rewrite _get_order_eq.
  destruct (Py.get order_id (orders s)) as [po|]; [|reflexivity].
  now rewrite for_each_receive_eq.
Qed.

End MethodEquations.

(** ** What the calls keep *)

Section Invariants.
Import InventorySystem Session.

Lemma stock_of_get d k item :
  Forall (fun it => 0 <= InventoryItem.currentStock it) (Py.values d) ->
  Py.get k d = Some item -> 0 <= InventoryItem.currentStock item.
Proof.
  intros H Hg. rewrite Forall_forall in H. apply H.
  eapply get_In_values; eassumption.
Qed.

Lemma receive_one_stock d line :
  0 <= snd line ->
  Forall (fun it => 0 <= InventoryItem.currentStock it) (Py.values d) ->
  Forall (fun it => 0 <= InventoryItem.currentStock it)
         (Py.values (receive_one d line)).
Proof.
  intros Hq H. unfold receive_one.
  destruct (Py.get (fst line) d) as [item|] eqn:E; [|assumption].
  apply Forall_values_alter; [|assumption].
  intros v _. simpl. pose proof (stock_of_get _ _ _ H E). lia.
Qed.

Lemma received_stock lines d :
  Forall (fun qty => 0 <= qty) (Py.values lines) ->
  Forall (fun it => 0 <= InventoryItem.currentStock it) (Py.values d) ->
  Forall (fun it => 0 <= InventoryItem.currentStock it)
         (Py.values (received lines d)).
Proof.
  unfold received. revert d.
  induction lines as [|line lines IH]; simpl; intros d Hl H; [assumption|].
  inversion Hl; subst. apply IH; [assumption|].
  now apply receive_one_stock.
Qed.

(** the loop of [receive_order] changes stocks only *)
Lemma received_keeps (P : InventoryItem.t -> Prop) lines d :
  (forall v it, P it -> P (InventoryItem.set_currentStock v it)) ->
  Forall P (Py.values d) -> Forall P (Py.values (received lines d)).
Proof.
  intros HP. unfold received. revert d.
  induction lines as [|line lines IH]; simpl; intros d H; [assumption|].
  apply IH. unfold receive_one.
  destruct (Py.get (fst line) d) as [item|] eqn:E; [|assumption].
  apply Forall_values_alter; [|assumption].
  intros v Hv. apply HP. rewrite Forall_forall in H. apply H.
  eapply get_In_values; eassumption.
Qed.

Lemma alter_stock_keeps (P : InventoryItem.t -> Prop) v k d :
  (forall v it, P it -> P (InventoryItem.set_currentStock v it)) ->
  Forall P (Py.values d) ->
  Forall P (Py.values (Py.alter (InventoryItem.set_currentStock v) k d)).
Proof.
  intros HP H. apply Forall_values_alter; [|assumption].
  intros it Hit. apply HP. rewrite Forall_forall in H. apply H.
  eapply get_In_values; eassumption.
Qed.

Lemma add_item_lines item_id qty po :
  Forall (fun q => 0 <= q) (Py.values (PurchaseOrder.items po)) ->
  Forall (fun q => 0 <= q)
         (Py.values (PurchaseOrder.items (PurchaseOrder.add_item item_id qty po))).
Proof.
  intros H. unfold PurchaseOrder.add_item. simpl.
  apply Forall_values_set; [|assumption].
  destruct (Py.get item_id (PurchaseOrder.items po)) as [q|] eqn:E.
  - rewrite Forall_forall in H.
    pose proof (H q (get_In_values _ _ _ E)). lia.
  - lia.
Qed.

Lemma inv_init : inv init.
Proof. repeat split; constructor. Qed.

Lemma refs_ok_mono (S S' : Py.dict Supplier.t) (C C' : Py.dict Category.t) d :
  (forall k, Py.mem k S = true -> Py.mem k S' = true) ->
  (forall k, Py.mem k C = true -> Py.mem k C' = true) ->
  Forall (fun it => Py.mem (InventoryItem.supplierID it) S = true
                    /\ Py.mem (InventoryItem.categoryID it) C = true)
         (Py.values d) ->
  Forall (fun it => Py.mem (InventoryItem.supplierID it) S' = true
                    /\ Py.mem (InventoryItem.categoryID it) C' = true)
         (Py.values d).
Proof.
  intros HS HC H. eapply Forall_impl; [|exact H].
  intros it [H1 H2]. split; auto.
Qed.

Lemma inv_after c s : inv s -> inv (after c s).
Proof.
  intros (Hs & Hl & Hr). unfold after, perform, discard.
  destruct c; simpl.
  - (* add_category *)
    repeat split; try assumption.
    unfold refs_ok in *. simpl.
    eapply refs_ok_mono; [| |exact Hr]; auto using mem_set.
  - (* add_supplier *)
    repeat split; try assumption.
    unfold refs_ok in *. simpl.
    eapply refs_ok_mono; [| |exact Hr]; auto using mem_set.
  - (* add_item *)
    rewrite add_item_eq.
    destruct (Py.mem category_id (categories s)) eqn:Ec; simpl;
      [|repeat split; assumption].
    destruct (Py.mem supplier_id (suppliers s)) eqn:Es; simpl;
      [|repeat split; assumption].
    repeat split; try assumption.
    + unfold stock_ok in *. simpl. apply Forall_values_set; [simpl; lia|assumption].
    + unfold refs_ok in *. simpl. apply Forall_values_set; [simpl; auto|assumption].
  - (* search_items *)
    repeat split; assumption.
  - (* add_stock *)
    rewrite add_stock_eq.
    destruct (Py.get item_id (items s)) as [item|] eqn:E; simpl;
      [|repeat split; assumption].
    repeat split; try assumption.
    + unfold stock_ok in *. simpl. apply Forall_values_alter; [|assumption].
      intros v _. simpl. pose proof (stock_of_get _ _ _ Hs E). lia.
    + unfold refs_ok in *. simpl. apply alter_stock_keeps; auto.
  - (* consume_stock *)
    rewrite consume_stock_eq.
    destruct (Py.get item_id (items s)) as [item|] eqn:E; simpl;
      [|repeat split; assumption].
    destruct (InventoryItem.currentStock item >=? Z.max 0 qty) eqn:G; simpl;
      [|repeat split; assumption].
    repeat split; try assumption.
    + unfold stock_ok in *. simpl. apply Forall_values_alter; [|assumption].
      intros v _. simpl. apply Z.geb_le in G. lia.
    + unfold refs_ok in *. simpl. apply alter_stock_keeps; auto.
  - (* low_stock_items *)
    repeat split; assumption.
  - (* create_purchase_order *)
    rewrite create_purchase_order_eq.
    destruct (Py.mem supplier_id (suppliers s)); simpl;
      [|repeat split; assumption].
    repeat split; try assumption.
    unfold lines_ok in *. simpl. apply Forall_values_set; [constructor|assumption].
  - (* create_order_for_item *)
    rewrite create_order_for_item_eq.
    destruct (Py.get item_id (items s)) as [item|] eqn:E; simpl;
      [|repeat split; assumption].
    destruct (Py.mem (InventoryItem.supplierID item) (suppliers s)); simpl;
      [|repeat split; assumption].
    repeat split; try assumption.
    unfold lines_ok in *. simpl. apply Forall_values_alter.
    + intros po Hpo. rewrite get_set_eq in Hpo. injection Hpo as <-.
      apply add_item_lines. constructor.
    + apply Forall_values_set; [constructor|assumption].
  - (* submit_order *)
    rewrite submit_order_eq.
    destruct (Py.get order_id (orders s)) as [po|] eqn:E; simpl;
      [|repeat split; assumption].
    repeat split; try assumption.
    unfold lines_ok in *. simpl. apply Forall_values_alter; [|assumption].
    intros v Hv. simpl. rewrite Forall_forall in Hl.
    apply (Hl v). eapply get_In_values; eassumption.
  - (* receive_order *)
    rewrite receive_order_eq.
    destruct (Py.get order_id (orders s)) as [po|] eqn:E; simpl;
      [|repeat split; assumption].
    assert (Hpo : Forall (fun q => 0 <= q) (Py.values (PurchaseOrder.items po))).
    { unfold lines_ok in Hl. rewrite Forall_forall in Hl.
      apply (Hl po). eapply get_In_values; eassumption. }
    repeat split.
    + unfold stock_ok in *. simpl. now apply received_stock.
    + unfold lines_ok in *. simpl. apply Forall_values_alter; [|assumption].
      intros v Hv. simpl. rewrite Forall_forall in Hl.
      apply (Hl v). eapply get_In_values; eassumption.
    + unfold refs_ok in *. simpl. apply received_keeps; auto.
  - (* cancel_order *)
    rewrite cancel_order_eq.
    destruct (Py.get order_id (orders s)) as [po|] eqn:E; simpl;
      [|repeat split; assumption].
    repeat split; try assumption.
    unfold lines_ok in *. simpl. apply Forall_values_alter; [|assumption].
    intros v Hv. simpl. rewrite Forall_forall in Hl.
    apply (Hl v). eapply get_In_values; eassumption.
  - (* inventory_table *)
    repeat split; assumption.
  - (* orders_table *)
    repeat split; assumption.
Qed.

Lemma reachable_inv s : reachable s -> inv s.
Proof.
  induction 1 as [|c s _ IH]; [apply inv_init | now apply inv_after].
Qed.

Lemma run_reachable cs s : reachable s -> reachable (run cs s).
Proof.
  unfold run. revert s.
  induction cs as [|c cs IH]; simpl; intros s H; [assumption|].
  apply IH. now constructor.
Qed.

Lemma reachable_run s : reachable s -> exists cs, s = run cs init.
Proof.
  induction 1 as [|c s _ [cs ->]].
  - now exists [].
  - exists (cs ++ [c])%list. unfold run. now rewrite fold_left_app.
Qed.

End Invariants.

(** ** Stock levels *)

Section StockClaims.
Import InventorySystem Session.

(** C1.  Whatever sequence of calls of the public methods is made on a
    new [InventorySystem], the stock of every stored item is at least 0
    when the sequence is over, and still after one more call: so before
    and after each call of the sequence. *)
Theorem C1_stock_never_negative (cs : list call) (c : call) :
  stock_ok (run cs init) /\ stock_ok (after c (run cs init)).
Proof.
  assert (R : reachable (run cs init)) by (apply run_reachable; constructor).
  split.
  - now apply reachable_inv.
  - apply (reachable_inv (after c (run cs init))). now constructor.
Qed.

(** C2.  [consume_stock(item_id, qty)] works on [max(0, qty)].  With the
    item in the catalog: when the stock is at least that quantity the
    call returns [True], the stock of the item goes down by it, and
    nothing else changes (the other items, the item's other fields, the
    other collections, the counters); when the stock is less, the call
    returns [False] and the state is the one before.  With no such item
    the call raises the "Item not found" error (the not-found kind) and
    the state is the one before. *)
Theorem C2_consume_stock (s : t) (item_id qty : Z) :
  (forall item, Py.get item_id (items s) = Some item ->
     (Z.max 0 qty <= InventoryItem.currentStock item ->
      fst (consume_stock item_id qty s) = Return true
      /\ Py.get item_id (items (snd (consume_stock item_id qty s)))
         = Some (InventoryItem.set_currentStock
                   (InventoryItem.currentStock item - Z.max 0 qty) item)
      /\ stock_at (items (snd (consume_stock item_id qty s))) item_id
         = Some (InventoryItem.currentStock item - Z.max 0 qty)
      /\ (exists item',
            Py.get item_id (items (snd (consume_stock item_id qty s)))
            = Some item'
            /\ same_but_stock item item')
      /\ (forall k, k <> item_id ->
            Py.get k (items (snd (consume_stock item_id qty s)))
            = Py.get k (items s))
      /\ set_items (items s) (snd (consume_stock item_id qty s)) = s)
     /\ (InventoryItem.currentStock item < Z.max 0 qty ->
         consume_stock item_id qty s = (Return false, s)))
  /\ (Py.get item_id (items s) = None ->
      consume_stock item_id qty s = (Raise (ValueError "Item not found"), s)
      /\ kind_of (ValueError "Item not found") = Some NotFoundError).
Proof.
  rewrite consume_stock_eq. split.
  - intros item E. rewrite E. split; intros H.
    + apply Z.geb_le in H. rewrite H. simpl.
      split; [reflexivity|]. split; [now rewrite get_alter_eq, E|].
      split; [unfold stock_at; now rewrite get_alter_eq, E|].
      split; [|split].
      * eexists. split; [now rewrite get_alter_eq, E|].
        repeat split.
      * intros k Hk. now apply get_alter_ne.
      * now destruct s.
    + destruct (InventoryItem.currentStock item >=? Z.max 0 qty) eqn:G;
        [|reflexivity].
      apply Z.geb_le in G. lia.
  - intros E. rewrite E. split; reflexivity.
Qed.

Lemma C2_witness :
  (fst (consume_stock 1001 5 (run demo init)) = Return true
   /\ stock_at (items (run demo init)) 1001 = Some 19
   /\ stock_at (items (snd (consume_stock 1001 5 (run demo init)))) 1001
      = Some 14)
  /\ consume_stock 1001 50 (run demo init) = (Return false, run demo init)
  /\ consume_stock 7 1 (run demo init)
     = (Raise (ValueError "Item not found"), run demo init).
Proof.
  destruct (C2_consume_stock (run demo init) 1001 5) as [H5 _].
  destruct (H5 (InventoryItem.mk 1001 "Milk" price_1_20 1 1 19 8 12) eq_refl)
    as [Ht _].
  destruct Ht as (R & _ & St & _); [vm_compute; discriminate|].
  destruct (C2_consume_stock (run demo init) 1001 50) as [H50 _].
  destruct (H50 (InventoryItem.mk 1001 "Milk" price_1_20 1 1 19 8 12) eq_refl)
    as [_ Hf].
  destruct (C2_consume_stock (run demo init) 7 1) as [_ H7].
  assert (E7 : Py.get 7 (items (run demo init)) = None)
    by (vm_compute; reflexivity).
  split; [|split].
  - split; [exact R|]. split; [vm_compute; reflexivity | exact St].
  - apply Hf. reflexivity.
  - exact (proj1 (H7 E7)).
Defined.

Lemma received_two (A B x y : Z) (a b : InventoryItem.t) d :
  A <> B -> Py.get A d = Some a -> Py.get B d = Some b ->
  Py.get A (received [(A, x); (B, y)] d)
  = Some (InventoryItem.set_currentStock (InventoryItem.currentStock a + x) a)
  /\ Py.get B (received [(A, x); (B, y)] d)
     = Some (InventoryItem.set_currentStock (InventoryItem.currentStock b + y) b).
Proof.
  intros Hne Ha Hb. unfold received, receive_one. simpl. rewrite Ha.
  rewrite get_alter_ne, Hb by congruence. split.
  - rewrite get_alter_ne by congruence. now rewrite get_alter_eq, Ha.
  - now rewrite get_alter_eq, get_alter_ne, Hb by congruence.
Qed.

(** C3.  An order whose lines are {A: 5, B: 3} (in either order of
    insertion), A and B being items of the catalog: [receive_order]
    returns, the stock of A is 5 more and the stock of B 3 more, and the
    status of the order is "RECEIVED", whatever the status was.  A second
    [receive_order] on the same order returns as well and adds the
    quantities again: 10 and 6 more than at first. *)
Theorem C3_receive_order_twice (s : t) (order_id A B : Z)
    (po : PurchaseOrder.t) (a b : InventoryItem.t) :
  A <> B ->
  Py.get order_id (orders s) = Some po ->
  PurchaseOrder.items po = [(A, 5); (B, 3)]
    \/ PurchaseOrder.items po = [(B, 3); (A, 5)] ->
  Py.get A (items s) = Some a ->
  Py.get B (items s) = Some b ->
  let s1 := snd (receive_order order_id s) in
  let s2 := snd (receive_order order_id s1) in
  let stock v it := InventoryItem.set_currentStock
                      (InventoryItem.currentStock it + v) it in
  (fst (receive_order order_id s) = Return tt
   /\ Py.get A (items s1) = Some (stock 5 a)
   /\ Py.get B (items s1) = Some (stock 3 b)
   /\ Py.get order_id (orders s1)
      = Some (PurchaseOrder.set_status "RECEIVED" po)
   /\ stock_at (items s1) A = Some (InventoryItem.currentStock a + 5)
   /\ stock_at (items s1) B = Some (InventoryItem.currentStock b + 3)
   /\ status_at (orders s1) order_id = Some "RECEIVED")
  /\ (fst (receive_order order_id s1) = Return tt
      /\ Py.get A (items s2) = Some (stock 10 a)
      /\ Py.get B (items s2) = Some (stock 6 b)
      /\ Py.get order_id (orders s2)
         = Some (PurchaseOrder.set_status "RECEIVED" po)
      /\ stock_at (items s2) A = Some (InventoryItem.currentStock a + 10)
      /\ stock_at (items s2) B = Some (InventoryItem.currentStock b + 6)
      /\ status_at (orders s2) order_id = Some "RECEIVED").
Proof.
  intros Hne Hpo Hlines Ha Hb s1 s2 stock.
  assert (H1 : receive_order order_id s =
               (Return tt,
                mk (_item_id s) (_cat_id s) (_sup_id s) (_po_id s)
                   (categories s) (suppliers s)
                   (received (PurchaseOrder.items po) (items s))
                   (Py.alter (PurchaseOrder.set_status "RECEIVED")
                             order_id (orders s)))).
  { rewrite receive_order_eq, Hpo. reflexivity. }
  assert (Ho1 : Py.get order_id (orders s1)
                = Some (PurchaseOrder.set_status "RECEIVED" po)).
  { subst s1. rewrite H1. simpl. now rewrite get_alter_eq, Hpo. }
  assert (Hi1 : Py.get A (items s1) = Some (stock 5 a)
                /\ Py.get B (items s1) = Some (stock 3 b)).
  { subst s1. rewrite H1. simpl.
    destruct Hlines as [-> | ->].
    - now apply received_two.
    - apply and_comm. apply received_two; auto. }
  destruct Hi1 as [Ha1 Hb1].
  assert (H2 : receive_order order_id s1 =
               (Return tt,
                mk (_item_id s1) (_cat_id s1) (_sup_id s1) (_po_id s1)
                   (categories s1) (suppliers s1)
                   (received (PurchaseOrder.items po) (items s1))
                   (Py.alter (PurchaseOrder.set_status "RECEIVED")
                             order_id (orders s1)))).
  { rewrite receive_order_eq, Ho1. reflexivity. }
  assert (Hi2 : Py.get A (items s2) = Some (stock 5 (stock 5 a))
                /\ Py.get B (items s2) = Some (stock 3 (stock 3 b))).
  { subst s2. rewrite H2. simpl.
    destruct Hlines as [-> | ->].
    - now apply received_two.
    - apply and_comm. apply received_two; auto. }
  destruct Hi2 as [Ha2 Hb2].
  assert (Ho2 : Py.get order_id (orders s2)
                = Some (PurchaseOrder.set_status "RECEIVED" po)).
  { subst s2. rewrite H2. simpl. rewrite get_alter_eq, Ho1. reflexivity. }
  split.
  - split; [rewrite H1; reflexivity|]. split; [exact Ha1|].
    split; [exact Hb1|]. split; [exact Ho1|].
    unfold stock_at, status_at. rewrite Ha1, Hb1, Ho1.
    repeat split.
  - split; [rewrite H2; reflexivity|]. split.
    { rewrite Ha2. unfold stock, InventoryItem.set_currentStock. simpl.
      do 2 f_equal. lia. }
    split.
    { rewrite Hb2. unfold stock, InventoryItem.set_currentStock. simpl.
      do 2 f_equal. lia. }
    split; [exact Ho2|].
    unfold stock_at, status_at. rewrite Ha2, Hb2, Ho2. simpl.
    split; [f_equal; lia|]. split; [f_equal; lia | reflexivity].
Qed.

Lemma C3_witness :
  (status_at (orders two_line_state) 5001 = Some "OPEN"
   /\ stock_at (items two_line_state) 1001 = Some 12
   /\ stock_at (items two_line_state) 1002 = Some 2)
  /\ (stock_at (items (snd (receive_order 5001 two_line_state))) 1001 = Some 17
      /\ stock_at (items (snd (receive_order 5001 two_line_state))) 1002
         = Some 5
      /\ status_at (orders (snd (receive_order 5001 two_line_state))) 5001
         = Some "RECEIVED")
  /\ (stock_at
        (items (snd (receive_order 5001
                       (snd (receive_order 5001 two_line_state))))) 1001
      = Some 22
      /\ stock_at
           (items (snd (receive_order 5001
                          (snd (receive_order 5001 two_line_state))))) 1002
         = Some 8
      /\ status_at
           (orders (snd (receive_order 5001
                           (snd (receive_order 5001 two_line_state))))) 5001
         = Some "RECEIVED").
Proof.
  destruct (C3_receive_order_twice two_line_state 5001 1001 1002
              (PurchaseOrder.mk 5001 "2024-01-01" 1 "OPEN" [(1001, 5); (1002, 3)])
              (InventoryItem.mk 1001 "Milk" price_1_20 1 1 12 8 12)
              (InventoryItem.mk 1002 "Tea" price_1_20 1 1 2 8 12))
    as [(_ & _ & _ & _ & A1 & B1 & S1) (_ & _ & _ & _ & A2 & B2 & S2)].
  - discriminate.
  - reflexivity.
  - left. reflexivity.
  - reflexivity.
  - reflexivity.
  - split; [repeat split; vm_compute; reflexivity|].
    split; [split; [exact A1 | split; [exact B1 | exact S1]]|].
    split; [exact A2 | split; [exact B2 | exact S2]].
Defined.

End StockClaims.

(** ** Failures *)

Section FailureClaims.
Import InventorySystem Session.

Local Ltac same_state H :=
  simpl in H; injection H as <- <-; split; [reflexivity | auto].

(** C4.  A call of a public method that raises leaves the state it found:
    the four collections and the four counters are the ones before the
    call.  What it raises is one of the errors for an unknown category
    or supplier (the reference kind) or an unknown item or order (the
    not-found kind); the [KeyError] of a dictionary access is never
    raised. *)
Theorem C4_failed_call_changes_nothing (c : call) (s s' : t) (e : exn) :
  perform c s = (Raise e, s') ->
  s' = s
  /\ (kind_of e = Some ReferenceError \/ kind_of e = Some NotFoundError).
Proof.
  destruct c; unfold perform, discard; intros H.
  - discriminate H.
  - discriminate H.
  - rewrite add_item_eq in H.
    destruct (Py.mem category_id (categories s)); [|same_state H].
    destruct (Py.mem supplier_id (suppliers s)); [discriminate H|same_state H].
  - discriminate H.
  - rewrite add_stock_eq in H.
    destruct (Py.get item_id (items s)); [discriminate H|same_state H].
  - rewrite consume_stock_eq in H.
    destruct (Py.get item_id (items s)) as [item|]; [|same_state H].
    destruct (InventoryItem.currentStock item >=? Z.max 0 qty); discriminate H.
  - discriminate H.
  - rewrite create_purchase_order_eq in H.
    destruct (Py.mem supplier_id (suppliers s)); [discriminate H|same_state H].
  - rewrite create_order_for_item_eq in H.
    destruct (Py.get item_id (items s)) as [item|]; [|same_state H].
    destruct (Py.mem (InventoryItem.supplierID item) (suppliers s));
      [discriminate H|same_state H].
  - rewrite submit_order_eq in H.
    destruct (Py.get order_id (orders s)); [discriminate H|same_state H].
  - rewrite receive_order_eq in H.
    destruct (Py.get order_id (orders s)); [discriminate H|same_state H].
  - rewrite cancel_order_eq in H.
    destruct (Py.get order_id (orders s)); [discriminate H|same_state H].
  - discriminate H.
  - discriminate H.
Qed.

Lemma C4_witness :
  after (Receive_order 7) (run demo init) = run demo init
  /\ (kind_of (ValueError "Order not found") = Some ReferenceError
      \/ kind_of (ValueError "Order not found") = Some NotFoundError).
Proof.
  apply (C4_failed_call_changes_nothing (Receive_order 7) (run demo init)
           (after (Receive_order 7) (run demo init))
           (ValueError "Order not found")).
  vm_compute. reflexivity.
Defined.

(** C5.  [add_item] with a category that is not registered raises the
    "Category does not exist" error, and with a registered category and a
    supplier that is not registered the "Supplier does not exist" error
    (both of the reference kind); the state, so the item dictionary, is
    the one before.  With both registered it returns the new identifier,
    the next value of the item counter, and the item stored under it has
    the arguments as its fields, but the stock and the reorder level
    raised to 0 and the reorder quantity raised to 1 when they are
    below. *)
Theorem C5_add_item (name : string) (price : Py.float)
    (category_id supplier_id current_stock reorder_level reorder_qty : Z)
    (s : t) :
  let r := add_item name price category_id supplier_id
                    current_stock reorder_level reorder_qty s in
  (Py.mem category_id (categories s) = false ->
     r = (Raise (ValueError "Category does not exist"), s)
     /\ kind_of (ValueError "Category does not exist") = Some ReferenceError)
  /\ (Py.mem category_id (categories s) = true ->
      Py.mem supplier_id (suppliers s) = false ->
      r = (Raise (ValueError "Supplier does not exist"), s)
      /\ kind_of (ValueError "Supplier does not exist") = Some ReferenceError)
  /\ (Py.mem category_id (categories s) = true ->
      Py.mem supplier_id (suppliers s) = true ->
      exists item,
        fst r = Return (_item_id s)
        /\ Py.get (_item_id s) (items (snd r)) = Some item
        /\ item = InventoryItem.mk (_item_id s) name price
                    category_id supplier_id
                    (Z.max 0 current_stock) (Z.max 0 reorder_level)
                    (Z.max 1 reorder_qty)
        /\ 0 <= InventoryItem.currentStock item
        /\ 0 <= InventoryItem.reorderLevel item
        /\ 1 <= InventoryItem.reorderQty item
        /\ (forall k, k <> _item_id s ->
              Py.get k (items (snd r)) = Py.get k (items s))).
Proof.
  intros r. subst r. rewrite add_item_eq. split; [|split].
  - intros ->. simpl. split; reflexivity.
  - intros -> ->. simpl. split; reflexivity.
  - intros -> ->. simpl. eexists. split; [reflexivity|].
    split; [apply get_set_eq|]. split; [reflexivity|]. simpl.
    repeat split; try lia.
    intros k Hk. now apply get_set_ne.
Qed.

Lemma C5_witness :
  add_item "Tea" price_1_20 9 1 4 2 6 (run demo init)
  = (Raise (ValueError "Category does not exist"), run demo init)
  /\ kind_of (ValueError "Category does not exist") = Some ReferenceError.
Proof.
  apply (C5_add_item "Tea" price_1_20 9 1 4 2 6 (run demo init)).
  reflexivity.
Defined.

(** C10.  In a state that a sequence of calls reaches from a new
    [InventorySystem], the supplier and the category of every stored item
    are in the supplier and category dictionaries.  So
    [create_order_for_item] on an item of the catalog does not raise
    "Supplier not found": it returns the identifier of the new order. *)
Theorem C10_item_references_resolve (s : t) :
  reachable s ->
  refs_ok s
  /\ forall today item_id qty,
       Py.mem item_id (items s) = true ->
       fst (create_order_for_item today item_id qty s)
         <> Raise (ValueError "Supplier not found")
       /\ fst (create_order_for_item today item_id qty s) = Return (_po_id s).
Proof.
  intros R. destruct (reachable_inv s R) as (_ & _ & Hr).
  split; [assumption|].
  intros today item_id qty Hm.
  apply mem_get in Hm. destruct Hm as [item E].
  rewrite create_order_for_item_eq, E.
  unfold refs_ok in Hr. rewrite Forall_forall in Hr.
  destruct (Hr item (get_In_values _ _ _ E)) as [Hs _].
  rewrite Hs. simpl. split; [discriminate|reflexivity].
Qed.

Lemma C10_witness :
  refs_ok (run demo init)
  /\ forall today item_id qty,
       Py.mem item_id (items (run demo init)) = true ->
       fst (create_order_for_item today item_id qty (run demo init))
         <> Raise (ValueError "Supplier not found")
       /\ fst (create_order_for_item today item_id qty (run demo init))
          = Return (_po_id (run demo init)).
Proof.
  apply (C10_item_references_resolve (run demo init)).
  apply run_reachable. apply reach_init.
Defined.

End FailureClaims.

(** ** Strings *)

Section StringFacts.

Lemma prefix_iff k s : prefix k s = true <-> exists suf, s = k ++ suf.
Proof.
  revert s. induction k as [|c k IH]; intros s; simpl.
  - split; [intros _; now exists s | intros _; now destruct s].
  - destruct s as [|c' s]; simpl.
    + split; [discriminate | intros [suf H]; discriminate].
    + destruct (ascii_dec c c') as [->|Hne].
      * rewrite IH. split; intros [suf H]; exists suf; congruence.
      * split; [discriminate | intros [suf H]; congruence].
Qed.

Lemma contains_iff k s : Py.contains k s = true <-> occurs_in k s.
Proof.
  unfold occurs_in. induction s as [|c s IH].
  - unfold Py.contains. rewrite orb_false_r. split.
    + intros H. apply prefix_iff in H. destruct H as [suf H].
      now exists "", suf.
    + intros (pre & suf & H). apply prefix_iff.
      destruct pre; [now exists suf | discriminate].
  - change (Py.contains k (String c s))
      with (prefix k (String c s) || Py.contains k s).
    rewrite orb_true_iff. split.
    + intros [H | H].
      * apply prefix_iff in H. destruct H as [suf H]. now exists "", suf.
      * apply IH in H. destruct H as (pre & suf & H).
        exists (String c pre), suf. simpl. now rewrite H.
    + intros (pre & suf & H). destruct pre as [|c' pre]; simpl in H.
      * left. apply prefix_iff. now exists suf.
      * right. apply IH. exists pre, suf. congruence.
Qed.

Lemma all_digits_uint d : all_digits (NilEmpty.string_of_uint d) = true.
Proof. induction d; simpl; auto. Qed.

Lemma str_nonneg n :
  0 <= n -> all_digits (Py.str n) = true /\ Py.str n <> "".
Proof.
  intros Hn. unfold Py.str.
  destruct n as [|p|p]; [split; [reflexivity|discriminate] | | lia].
  simpl. unfold NilZero.string_of_uint.
  pose proof (all_digits_uint (Pos.to_uint p)) as H.
  destruct (Pos.to_uint p); simpl in *;
    (split; [assumption || reflexivity | discriminate]).
Qed.

Lemma str_digit d :
  0 <= d < 10 ->
  exists c, Py.str d = String c "" /\ is_digit c = true.
Proof.
  intros H.
  assert (E : d = 0 \/ d = 1 \/ d = 2 \/ d = 3 \/ d = 4 \/ d = 5
              \/ d = 6 \/ d = 7 \/ d = 8 \/ d = 9) by lia.
  repeat (destruct E as [->|E]; [eexists; split; reflexivity|]).
  subst d. eexists; split; reflexivity.
Qed.

Lemma two_digits_shape r :
  0 <= r < 100 ->
  exists d1 d2, Py.two_digits r = String d1 (String d2 "")
                /\ is_digit d1 = true /\ is_digit d2 = true.
Proof.
  intros H. unfold Py.two_digits.
  destruct (str_digit (r / 10)) as (d1 & E1 & H1).
  { split; [apply Z.div_pos; lia | apply Z.div_lt_upper_bound; lia]. }
  destruct (str_digit (r mod 10)) as (d2 & E2 & H2).
  { apply Z.mod_pos_bound. lia. }
  exists d1, d2. rewrite E1, E2. auto.
Qed.

Lemma cents_nonneg m e : 0 <= Py.cents m e.
Proof.
  unfold Py.cents.
  destruct (0 <=? e) eqn:E.
  - apply Z.mul_nonneg_nonneg; [lia|]. apply Z.pow_nonneg. lia.
  - apply Z.leb_gt in E.
    assert (0 < 2 ^ (- e)) by (apply Z.pow_pos_nonneg; lia).
    assert (0 <= Z.pos m * 100 / 2 ^ (- e)) by (apply Z.div_pos; lia).
    destruct (_ || _); lia.
Qed.

(** [cents] is the nearest integer to the hundredfold of the float *)
Lemma cents_nearest m e :
  if 0 <=? e then Py.cents m e = Z.pos m * 2 ^ e * 100
  else 2 * Z.abs (Py.cents m e * 2 ^ (- e) - Z.pos m * 100) <= 2 ^ (- e).
Proof.
  unfold Py.cents. destruct (0 <=? e) eqn:E; [lia|].
  apply Z.leb_gt in E.
  assert (Hd : 0 < 2 ^ (- e)) by (apply Z.pow_pos_nonneg; lia).
  pose proof (Z.div_mod (Z.pos m * 100) (2 ^ (- e)) ltac:(lia)) as Hdm.
  pose proof (Z.mod_pos_bound (Z.pos m * 100) (2 ^ (- e)) Hd) as Hr.
  set (d := 2 ^ (- e)) in *.
  set (q := Z.pos m * 100 / d) in *.
  set (r := (Z.pos m * 100) mod d) in *.
  assert (Hn : Z.pos m * 100 = d * q + r) by exact Hdm.
  clearbody d q r. clear Hdm.
  assert (Up : 2 * r >= d ->
               2 * Z.abs ((q + 1) * d - Z.pos m * 100) <= d).
  { intros G. replace ((q + 1) * d - Z.pos m * 100) with (d - r)
      by (rewrite Hn; ring).
    rewrite Z.abs_eq by lia. lia. }
  assert (Down : 2 * r <= d -> 2 * Z.abs (q * d - Z.pos m * 100) <= d).
  { intros G. replace (q * d - Z.pos m * 100) with (- r)
      by (rewrite Hn; ring).
    rewrite Z.abs_opp, Z.abs_eq by lia. lia. }
  destruct (d <? 2 * r) eqn:G; cbn [orb].
  - apply Z.ltb_lt in G. apply Up. lia.
  - apply Z.ltb_ge in G. destruct ((d =? 2 * r) && Z.odd q) eqn:G2.
    + apply andb_true_iff in G2. destruct G2 as [G2 _].
      apply Z.eqb_eq in G2. apply Up. lia.
    + apply Down. lia.
Qed.

Lemma amount_digits ds d1 d2 seen :
  all_digits ds = true -> seen = true \/ ds <> "" ->
  is_digit d1 = true -> is_digit d2 = true ->
  amount seen (ds ++ "." ++ String d1 (String d2 "")) = true.
Proof.
  revert seen. induction ds as [|c ds IH]; simpl; intros seen Hd Hs H1 H2.
  - destruct Hs as [->|Hs]; [|congruence]. now rewrite H1, H2.
  - apply andb_true_iff in Hd. destruct Hd as [Hc Hd]. rewrite Hc.
    apply IH; auto.
Qed.

Lemma amount_format (sgn : bool) (c : Z) :
  0 <= c ->
  currency_two_decimals
    ("$" ++ Py.sign_str sgn ++ Py.str (c / 100) ++ "."
     ++ Py.two_digits (c mod 100)) = true.
Proof.
  intros Hc.
  destruct (two_digits_shape (c mod 100)) as (d1 & d2 & E & H1 & H2).
  { apply Z.mod_pos_bound. lia. }
  destruct (str_nonneg (c / 100)) as [Hd Hne]; [apply Z.div_pos; lia|].
  rewrite E.
  assert (A : amount false (Py.str (c / 100) ++ "." ++ String d1 (String d2 ""))
              = true) by (apply amount_digits; auto).
  destruct sgn; simpl; [exact A|].
  destruct (Py.str (c / 100)) as [|a r] eqn:Es; [congruence|].
  simpl in *. destruct (Ascii.eqb_spec a "-") as [->|Hn]; [discriminate Hd|].
  destruct a as [[] [] [] [] [] [] [] []]; try exact A; congruence.
Qed.

Lemma format_2f_finite x :
  finite x = true ->
  currency_two_decimals ("$" ++ Py.format_2f x) = true.
Proof.
  destruct x as [sgn|sgn| |sgn m e]; simpl; try discriminate; intros _.
  - now destruct sgn.
  - apply amount_format, cents_nonneg.
Qed.

End StringFacts.


(** ** Round trip, order lines, search and tables *)

Section CatalogClaims.
Import InventorySystem Session.

(** C6.  In a state that a sequence of calls reaches from a new
    [InventorySystem], for an item of the catalog and any integer [qty]:
    [add_stock(item_id, qty)] returns, [consume_stock(item_id, qty)]
    after it returns [True], and the stock of the item is then what it
    was before the two calls; the whole state is. *)
Theorem C6_add_then_consume (s : t) (item_id qty : Z) (item : InventoryItem.t) :
  reachable s ->
  Py.get item_id (items s) = Some item ->
  let s1 := snd (add_stock item_id qty s) in
  let s2 := snd (consume_stock item_id qty s1) in
  fst (add_stock item_id qty s) = Return tt
  /\ fst (consume_stock item_id qty s1) = Return true
  /\ option_map InventoryItem.currentStock (Py.get item_id (items s2))
     = Some (InventoryItem.currentStock item)
  /\ s2 = s.
Proof.
  intros R E s1 s2.
  destruct (reachable_inv s R) as (Hs & _ & _).
  pose proof (stock_of_get _ _ _ Hs E) as H0.
  assert (E1 : add_stock item_id qty s =
               (Return tt,
                set_items
                  (Py.alter (InventoryItem.set_currentStock
                               (InventoryItem.currentStock item + Z.max 0 qty))
                            item_id (items s)) s)).
  { rewrite add_stock_eq, E. reflexivity. }
  assert (G1 : Py.get item_id (items s1)
               = Some (InventoryItem.set_currentStock
                         (InventoryItem.currentStock item + Z.max 0 qty) item)).
  { subst s1. rewrite E1. simpl. now rewrite get_alter_eq, E. }
  assert (E2 : consume_stock item_id qty s1 = (Return true, s)).
  { rewrite consume_stock_eq, G1. simpl.
    replace (InventoryItem.currentStock item + Z.max 0 qty >=? Z.max 0 qty)
      with true by (symmetry; apply Z.geb_le; lia).
    f_equal. subst s1. rewrite E1. simpl. unfold set_items. simpl.
    rewrite alter_alter.
    rewrite (alter_same _ _ _ item E).
    - now destruct s.
    - destruct item. unfold InventoryItem.set_currentStock. simpl.
      f_equal. lia. }
  subst s2. rewrite E1, E2. simpl. rewrite E. simpl. auto.
Qed.

Lemma C6_witness :
  fst (add_stock 1001 4 (run demo init)) = Return tt
  /\ fst (consume_stock 1001 4 (snd (add_stock 1001 4 (run demo init))))
     = Return true
  /\ option_map InventoryItem.currentStock
       (Py.get 1001
          (items (snd (consume_stock 1001 4
                         (snd (add_stock 1001 4 (run demo init)))))))
     = Some 19
  /\ snd (consume_stock 1001 4 (snd (add_stock 1001 4 (run demo init))))
     = run demo init.
Proof.
  apply (C6_add_then_consume (run demo init) 1001 4
           (InventoryItem.mk 1001 "Milk" price_1_20 1 1 19 8 12)).
  - apply run_reachable. apply reach_init.
  - reflexivity.
Defined.

(** C7.  [PurchaseOrder.add_item(item_id, qty)] works on [max(0, qty)],
    which is at least 0.  When the order has a line for the item the
    quantity of the line becomes the old one plus that; when it has none
    the new line has that quantity.  The other lines and the other fields
    of the order are the ones before. *)
Theorem C7_order_add_item (po : PurchaseOrder.t) (item_id qty : Z) :
  let po' := PurchaseOrder.add_item item_id qty po in
  0 <= Z.max 0 qty
  /\ Py.get item_id (PurchaseOrder.items po')
     = Some (match Py.get item_id (PurchaseOrder.items po) with
             | Some old => old + Z.max 0 qty
             | None => Z.max 0 qty
             end)
  /\ (forall k, k <> item_id ->
        Py.get k (PurchaseOrder.items po') = Py.get k (PurchaseOrder.items po))
  /\ PurchaseOrder.set_items (PurchaseOrder.items po) po' = po.
Proof.
  intros po'. subst po'. unfold PurchaseOrder.add_item. simpl.
  split; [lia|]. split; [|split].
  - rewrite get_set_eq.
    now destruct (Py.get item_id (PurchaseOrder.items po)).
  - intros k Hk. now apply get_set_ne.
  - now destruct po.
Qed.

Lemma C7_witness :
  Py.get 1001
    (PurchaseOrder.items
       (PurchaseOrder.add_item 1001 3
          (PurchaseOrder.mk 5001 "2024-01-01" 1 "OPEN" [(1001, 12)])))
  = Some 15
  /\ Py.get 1002
       (PurchaseOrder.items
          (PurchaseOrder.add_item 1002 (-4)
             (PurchaseOrder.mk 5001 "2024-01-01" 1 "OPEN" [(1001, 12)])))
     = Some 0.
Proof.
  split.
  - exact (proj1 (proj2 (C7_order_add_item
                           (PurchaseOrder.mk 5001 "2024-01-01" 1 "OPEN" [(1001, 12)])
                           1001 3))).
  - exact (proj1 (proj2 (C7_order_add_item
                           (PurchaseOrder.mk 5001 "2024-01-01" 1 "OPEN" [(1001, 12)])
                           1002 (-4)))).
Defined.

(** C8, as the code has it.  [search_items(keyword)] puts the keyword in
    lower case and removes the white space at its two ends; it returns,
    and changes nothing in the state, the stored items whose name in
    lower case contains that string, in the order of the item
    dictionary, which is the order of insertion. *)
Theorem C8_search_items (keyword : string) (s : t) :
  let k := Py.strip (Py.lower keyword) in
  exists result,
    search_items keyword s = (Return result, s)
    /\ result = filter (fun it => Py.contains k (Py.lower (InventoryItem.name it)))
                       (Py.values (items s))
    /\ (forall it, In it result <->
                   In it (Py.values (items s))
                   /\ occurs_in k (Py.lower (InventoryItem.name it))).
Proof.
  intros k. eexists. split; [reflexivity|]. split; [reflexivity|].
  intros it. rewrite filter_In, contains_iff. reflexivity.
Qed.

Lemma C8_witness :
  exists result,
    search_items " MI " (run demo init) = (Return result, run demo init)
    /\ result = filter (fun it => Py.contains "mi" (Py.lower (InventoryItem.name it)))
                       (Py.values (items (run demo init)))
    /\ (forall it, In it result <->
                   In it (Py.values (items (run demo init)))
                   /\ occurs_in "mi" (Py.lower (InventoryItem.name it))).
Proof.
  exact (C8_search_items " MI " (run demo init)).
Defined.

(** C8, as stated, fails: with one item "Box" in the catalog, the search
    for " x" (a space, then x) returns the item, and " x" does not occur
    in "box". *)
Lemma C8_counterexample :
  exists it,
    fst (search_items " x" (run box_calls init)) = Return [it]
    /\ InventoryItem.name it = "Box"
    /\ ~ occurs_in (Py.lower " x") (Py.lower (InventoryItem.name it)).
Proof.
  eexists. split; [reflexivity|]. split; [reflexivity|].
  intros H. apply contains_iff in H. discriminate H.
Qed.

(** C9, as the code has it.  [inventory_table] and [orders_table] return
    and leave the state as it is.  After the header there is one row for
    each item (each order), the rows in ascending order of [itemID]
    ([orderID]), which is the first cell.  The price cell is the dollar
    sign and the price in the format [.2f]; for a price that is a number
    this is an amount with two decimals.  The lines cell of an order
    with no line is "-". *)
Theorem C9_tables_read_only (s : t) :
  exists its ords,
    inventory_table s
    = (Return (inventory_header :: map InventoryItem.to_row its), s)
    /\ Permutation (Py.values (items s)) its
    /\ Sorted Z.le (map InventoryItem.itemID its)
    /\ orders_table s = (Return (orders_header :: map order_row ords), s)
    /\ Permutation (Py.values (orders s)) ords
    /\ Sorted Z.le (map PurchaseOrder.orderID ords)
    /\ (forall it,
          nth 0 (InventoryItem.to_row it) "" = Py.str (InventoryItem.itemID it)
          /\ nth 2 (InventoryItem.to_row it) ""
             = "$" ++ Py.format_2f (InventoryItem.price it)
          /\ (finite (InventoryItem.price it) = true ->
              currency_two_decimals (nth 2 (InventoryItem.to_row it) "") = true))
    /\ (forall po,
          nth 0 (order_row po) "" = Py.str (PurchaseOrder.orderID po)
          /\ (PurchaseOrder.items po = [] -> nth 4 (order_row po) "" = "-")).
Proof.
  exists (Py.sorted InventoryItem.itemID (Py.values (items s))),
         (Py.sorted PurchaseOrder.orderID (Py.values (orders s))).
  split; [reflexivity|]. split; [apply sorted_perm|].
  split; [apply sorted_sorted|]. split; [reflexivity|].
  split; [apply sorted_perm|]. split; [apply sorted_sorted|]. split.
  - intros it. split; [reflexivity|]. split; [reflexivity|].
    intros F. now apply format_2f_finite.
  - intros po. split; [reflexivity|]. intros E.
    unfold order_row. rewrite E. reflexivity.
Qed.

Lemma C9_witness :
  currency_two_decimals
    (nth 2 (InventoryItem.to_row
              (InventoryItem.mk 1001 "Milk" price_1_20 1 1 19 8 12)) "") = true
  /\ nth 4 (order_row (PurchaseOrder.mk 5001 "2024-01-01" 1 "OPEN" [])) "" = "-".
Proof.
  destruct (C9_tables_read_only init) as (_ & _ & _ & _ & _ & _ & _ & _ & Hi & Ho).
  split.
  - apply (Hi (InventoryItem.mk 1001 "Milk" price_1_20 1 1 19 8 12)).
    reflexivity.
  - apply (Ho (PurchaseOrder.mk 5001 "2024-01-01" 1 "OPEN" [])).
    reflexivity.
Defined.

(** C9, as stated, fails: [add_item] stores a NaN price as it is given,
    and the row of that item has the price cell "$nan", which is not an
    amount with two decimals. *)
Lemma C9_counterexample :
  exists row,
    fst (inventory_table (run nan_calls init)) = Return [inventory_header; row]
    /\ nth 2 row "" = "$nan"
    /\ currency_two_decimals (nth 2 row "") = false.
Proof.
  eexists. split; [reflexivity|]. split; reflexivity.
Qed.

End CatalogClaims.


(** ** Dictionaries keyed from a counter *)

Section KeyedFacts.
Context {V : Type}.
Implicit Types (d : Py.dict V) (k : Z) (v : V).

Lemma get_In d k v : Py.get k d = Some v -> In (k, v) d.
Proof.
  induction d as [|[k' v'] d IH]; simpl; [discriminate|].
  destruct (k =? k') eqn:E; intros H.
  - apply Z.eqb_eq in E. injection H as ->. left. congruence.
  - right. now apply IH.
Qed.

Lemma get_none_below d n :
  Forall (fun kv => fst kv < n) d -> Py.get n d = None.
Proof.
  induction 1 as [|[k v] d Hk _ IH]; simpl; [reflexivity|].
  simpl in Hk. destruct (n =? k) eqn:E; [apply Z.eqb_eq in E; lia|exact IH].
Qed.

(** a new key goes to the end *)
Lemma set_new d k v : Py.get k d = None -> Py.set k v d = (d ++ [(k, v)])%list.
Proof.
  induction d as [|[k' v'] d IH]; simpl; [reflexivity|].
  destruct (k =? k'); [discriminate|]. intros H. now rewrite IH.
Qed.

Lemma alter_fst f d k : map fst (Py.alter f k d) = map fst d.
Proof.
  induction d as [|[k' v'] d IH]; simpl; [reflexivity|].
  destruct (k =? k'); simpl; [reflexivity | now rewrite IH].
Qed.

Lemma alter_length f d k : List.length (Py.alter f k d) = List.length d.
Proof.
  rewrite <- (length_map fst), alter_fst. apply length_map.
Qed.

Lemma sorted_snoc (l : list Z) (x : Z) :
  StronglySorted Z.lt l -> Forall (fun y => y < x) l ->
  StronglySorted Z.lt (l ++ [x]).
Proof.
  induction 1 as [|y l Hs IH Hy]; simpl; intros Hx.
  - repeat constructor.
  - inversion Hx; subst. constructor; [now apply IH|].
    apply Forall_app. split; [assumption | now repeat constructor].
Qed.

Lemma wk_get idf lo n d k v :
  well_keyed idf lo n d -> Py.get k d = Some v ->
  (lo <= k < n) /\ idf v = k.
Proof.
  intros (_ & _ & H) Hg. rewrite Forall_forall in H.
  exact (H _ (get_In _ _ _ Hg)).
Qed.

Lemma wk_fresh idf lo n d : well_keyed idf lo n d -> Py.get n d = None.
Proof.
  intros (_ & _ & H). apply get_none_below.
  eapply Forall_impl; [|exact H]. simpl. intros kv [Hk _]. lia.
Qed.

Lemma wk_set idf lo n d v :
  well_keyed idf lo n d -> idf v = n ->
  well_keyed idf lo (n + 1) (Py.set n v d).
Proof.
  intros W Hv. pose proof (wk_fresh _ _ _ _ W) as Hf.
  destruct W as (Hlo & Hs & H). rewrite (set_new _ _ _ Hf).
  split; [lia|]. split.
  - rewrite map_app. simpl. apply sorted_snoc; [assumption|].
    rewrite Forall_map. eapply Forall_impl; [|exact H].
    simpl. intros kv [Hk _]. lia.
  - apply Forall_app. split.
    + eapply Forall_impl; [|exact H]. simpl. intros kv [Hk Hi]. split; [lia|assumption].
    + constructor; [|constructor]. simpl. split; [lia|assumption].
Qed.

Lemma wk_alter idf lo n d f k :
  (forall v, idf (f v) = idf v) ->
  well_keyed idf lo n d -> well_keyed idf lo n (Py.alter f k d).
Proof.
  intros Hf (Hlo & Hs & H). split; [assumption|]. split.
  - now rewrite alter_fst.
  - clear Hs. induction d as [|[k' v'] d IH]; simpl; [constructor|].
    inversion H as [|? ? Hh Ht]; subst. simpl in Hh.
    destruct (k =? k'); constructor; simpl; auto.
    now rewrite Hf.
Qed.

(** the values are in the order of their identifiers *)
Lemma wk_values_sorted idf lo n d :
  well_keyed idf lo n d -> StronglySorted Z.lt (map idf (Py.values d)).
Proof.
  intros (_ & Hs & H). unfold Py.values. rewrite map_map.
  replace (map (fun kv => idf (snd kv)) d) with (map fst d); [assumption|].
  apply map_ext_in. intros kv Hin. rewrite Forall_forall in H.
  symmetry. apply (H kv Hin).
Qed.

End KeyedFacts.

Section SortedIdentity.
Context {A : Type} (key : A -> Z).

(** [sorted] gives back a list that is in strictly ascending order *)
Lemma sorted_ascending l :
  StronglySorted Z.lt (map key l) -> Py.sorted key l = l.
Proof.
  induction l as [|x l IH]; simpl; intros H; [reflexivity|].
  inversion H as [|? ? Hs Hx]; subst. rewrite (IH Hs).
  destruct l as [|y l]; simpl; [reflexivity|].
  inversion Hx; subst.
  replace (key x <=? key y) with true by (symmetry; apply Z.leb_le; lia).
  reflexivity.
Qed.

End SortedIdentity.


(** ** The shape of the reachable states *)

Section Shape.
Import InventorySystem Session.

Lemma mem_receive_one d line k :
  Py.mem k (receive_one d line) = Py.mem k d.
Proof.
  unfold receive_one. destruct (Py.get (fst line) d); [|reflexivity].
  apply mem_alter.
Qed.

Lemma mem_received lines d k : Py.mem k (received lines d) = Py.mem k d.
Proof.
  unfold received. revert d.
  induction lines as [|line lines IH]; simpl; intros d; [reflexivity|].
  now rewrite IH, mem_receive_one.
Qed.

Lemma wk_received lo n lines d :
  well_keyed InventoryItem.itemID lo n d ->
  well_keyed InventoryItem.itemID lo n (received lines d).
Proof.
  unfold received. revert d.
  induction lines as [|line lines IH]; simpl; intros d H; [assumption|].
  apply IH. unfold receive_one.
  destruct (Py.get (fst line) d); [|assumption].
  now apply wk_alter.
Qed.

Lemma received_length lines d :
  List.length (received lines d) = List.length d.
Proof.
  unfold received. revert d.
  induction lines as [|line lines IH]; simpl; intros d; [reflexivity|].
  rewrite IH. unfold receive_one.
  destruct (Py.get (fst line) d); [apply alter_length|reflexivity].
Qed.

Lemma order_ok_mono (S S' : Py.dict Supplier.t) (I I' : Py.dict InventoryItem.t) po :
  (forall k, Py.mem k S = true -> Py.mem k S' = true) ->
  (forall k, Py.mem k I = true -> Py.mem k I' = true) ->
  order_ok S I po -> order_ok S' I' po.
Proof.
  intros HS HI (H1 & H2 & H3 & H4). repeat split; auto.
  eapply Forall_impl; [|exact H4]. auto.
Qed.

Lemma orders_ok_mono (S S' : Py.dict Supplier.t) (I I' : Py.dict InventoryItem.t)
    (l : list PurchaseOrder.t) :
  (forall k, Py.mem k S = true -> Py.mem k S' = true) ->
  (forall k, Py.mem k I = true -> Py.mem k I' = true) ->
  Forall (order_ok S I) l -> Forall (order_ok S' I') l.
Proof.
  intros HS HI H. eapply Forall_impl; [|exact H].
  intros po. now apply order_ok_mono.
Qed.

Lemma order_ok_status S I po st :
  is_status st -> order_ok S I po -> order_ok S I (PurchaseOrder.set_status st po).
Proof.
  intros Hst (_ & H2 & H3 & H4). repeat split; assumption.
Qed.

Lemma orders_ok_status S I d k st :
  is_status st ->
  Forall (order_ok S I) (Py.values d) ->
  Forall (order_ok S I) (Py.values (Py.alter (PurchaseOrder.set_status st) k d)).
Proof.
  intros Hst H. apply Forall_values_alter; [|assumption].
  intros po Hpo. apply order_ok_status; [assumption|].
  rewrite Forall_forall in H. apply H. eapply get_In_values; eassumption.
Qed.

Lemma shape_init : shape_ok init.
Proof.
  repeat split; simpl; try lia; constructor.
Qed.

Local Ltac conj :=
  unfold shape_ok, ids_ok; simpl;
  repeat (match goal with |- _ /\ _ => split end); try assumption.

Lemma shape_after c s : shape_ok s -> shape_ok (after c s).
Proof.
  intros ((Wc & Ws & Wi & Wo) & Hl & Ho). unfold after, perform, discard.
  destruct c; simpl.
  - (* add_category *)
    conj. now apply wk_set.
  - (* add_supplier *)
    conj.
    + now apply wk_set.
    + unfold orders_ok in *. simpl.
      eapply orders_ok_mono; [| |exact Ho]; auto using mem_set.
  - (* add_item *)
    rewrite add_item_eq.
    destruct (Py.mem category_id (categories s)); simpl; [|conj].
    destruct (Py.mem supplier_id (suppliers s)); simpl; [|conj].
    conj.
    + now apply wk_set.
    + unfold levels_ok in *. simpl.
      apply Forall_values_set; [simpl; lia|assumption].
    + unfold orders_ok in *. simpl.
      eapply orders_ok_mono; [| |exact Ho]; auto using mem_set.
  - (* search_items *) conj.
  - (* add_stock *)
    rewrite add_stock_eq.
    destruct (Py.get item_id (items s)) as [item|]; simpl; [|conj].
    conj.
    + now apply wk_alter.
    + unfold levels_ok in *. simpl. apply alter_stock_keeps; auto.
    + unfold orders_ok in *. simpl.
      eapply orders_ok_mono; [| |exact Ho]; auto.
      intros k. now rewrite mem_alter.
  - (* consume_stock *)
    rewrite consume_stock_eq.
    destruct (Py.get item_id (items s)) as [item|]; simpl; [|conj].
    destruct (InventoryItem.currentStock item >=? Z.max 0 qty); simpl; [|conj].
    conj.
    + now apply wk_alter.
    + unfold levels_ok in *. simpl. apply alter_stock_keeps; auto.
    + unfold orders_ok in *. simpl.
      eapply orders_ok_mono; [| |exact Ho]; auto.
      intros k. now rewrite mem_alter.
  - (* low_stock_items *) conj.
  - (* create_purchase_order *)
    rewrite create_purchase_order_eq.
    destruct (Py.mem supplier_id (suppliers s)) eqn:Es; simpl; [|conj].
    conj.
    + now apply wk_set.
    + unfold orders_ok in *. simpl. apply Forall_values_set; [|assumption].
      repeat split; simpl; auto. left. reflexivity.
  - (* create_order_for_item *)
    rewrite create_order_for_item_eq.
    destruct (Py.get item_id (items s)) as [item|] eqn:E; simpl; [|conj].
    destruct (Py.mem (InventoryItem.supplierID item) (suppliers s)) eqn:Es;
      simpl; [|conj].
    conj.
    + apply wk_alter; [reflexivity|]. now apply wk_set.
    + unfold orders_ok in *. simpl. apply Forall_values_alter.
      * intros po Hpo. rewrite get_set_eq in Hpo. injection Hpo as <-.
        repeat split; simpl; auto.
        -- left. reflexivity.
        -- constructor; [|constructor]. simpl. apply mem_get. eauto.
      * apply Forall_values_set; [|assumption].
        repeat split; simpl; auto. left. reflexivity.
  - (* submit_order *)
    rewrite submit_order_eq.
    destruct (Py.get order_id (orders s)); simpl; [|conj].
    conj.
    + now apply wk_alter.
    + unfold orders_ok in *. simpl. apply orders_ok_status; [|assumption].
      right. left. reflexivity.
  - (* receive_order *)
    rewrite receive_order_eq.
    destruct (Py.get order_id (orders s)) as [po|]; simpl; [|conj].
    conj.
    + now apply wk_received.
    + now apply wk_alter.
    + unfold levels_ok in *. simpl. apply received_keeps; auto.
    + unfold orders_ok in *. simpl. apply orders_ok_status.
      * right. right. left. reflexivity.
      * eapply orders_ok_mono; [| |exact Ho]; auto.
        intros k. now rewrite mem_received.
  - (* cancel_order *)
    rewrite cancel_order_eq.
    destruct (Py.get order_id (orders s)); simpl; [|conj].
    conj.
    + now apply wk_alter.
    + unfold orders_ok in *. simpl. apply orders_ok_status; [|assumption].
      right. right. right. reflexivity.
  - (* inventory_table *) conj.
  - (* orders_table *) conj.
Qed.

Lemma reachable_shape s : reachable s -> shape_ok s.
Proof.
  induction 1 as [|c s _ IH]; [apply shape_init | now apply shape_after].
Qed.

End Shape.


(** ** What a call leaves as it is *)

Section Frame.
Import InventorySystem Session.

Lemma set_stock_same it :
  InventoryItem.set_currentStock (InventoryItem.currentStock it) it = it.
Proof. now destruct it. Qed.

Lemma set_status_same po :
  PurchaseOrder.set_status (PurchaseOrder.status po) po = po.
Proof. now destruct po. Qed.

Lemma get_set_other {V} (d : Py.dict V) k n v x :
  Py.get k d = Some v -> Py.get n d = None -> Py.get k (Py.set n x d) = Some v.
Proof.
  intros Hk Hn. rewrite get_set_ne; [assumption|]. congruence.
Qed.

Lemma get_alter_stock d k k0 v it :
  Py.get k d = Some it ->
  exists w, Py.get k (Py.alter (InventoryItem.set_currentStock v) k0 d)
            = Some (InventoryItem.set_currentStock w it).
Proof.
  intros H. destruct (Z.eq_dec k k0) as [->|Hne].
  - exists v. now rewrite get_alter_eq, H.
  - exists (InventoryItem.currentStock it).
    now rewrite get_alter_ne, set_stock_same.
Qed.

Lemma get_received lines d k it :
  Py.get k d = Some it ->
  exists w, Py.get k (received lines d)
            = Some (InventoryItem.set_currentStock w it).
Proof.
  unfold received. revert d it.
  induction lines as [|line lines IH]; simpl; intros d it H.
  - exists (InventoryItem.currentStock it). now rewrite set_stock_same.
  - assert (H1 : exists w, Py.get k (receive_one d line)
                           = Some (InventoryItem.set_currentStock w it)).
    { unfold receive_one. destruct (Py.get (fst line) d) as [item|].
      - now apply get_alter_stock.
      - exists (InventoryItem.currentStock it). now rewrite set_stock_same. }
    destruct H1 as [w Hw]. destruct (IH _ _ Hw) as [w' Hw'].
    exists w'. exact Hw'.
Qed.

Lemma get_alter_status d k k0 st po :
  Py.get k d = Some po ->
  exists st', Py.get k (Py.alter (PurchaseOrder.set_status st) k0 d)
              = Some (PurchaseOrder.set_status st' po).
Proof.
  intros H. destruct (Z.eq_dec k k0) as [->|Hne].
  - exists st. now rewrite get_alter_eq, H.
  - exists (PurchaseOrder.status po).
    now rewrite get_alter_ne, set_status_same.
Qed.

(** X1.  In a reachable state every stored category, supplier, item and
    order has the key it is stored under as its identifier, and the key
    lies between the first value of the counter of its kind and the next
    value the counter gives. *)
Theorem X1_identifiers (s : t) :
  reachable s ->
  (forall k c, Py.get k (categories s) = Some c ->
     Category.categoryID c = k /\ 1 <= k < _cat_id s)
  /\ (forall k sp, Py.get k (suppliers s) = Some sp ->
        Supplier.supplierID sp = k /\ 1 <= k < _sup_id s)
  /\ (forall k it, Py.get k (items s) = Some it ->
        InventoryItem.itemID it = k /\ 1001 <= k < _item_id s)
  /\ (forall k po, Py.get k (orders s) = Some po ->
        PurchaseOrder.orderID po = k /\ 5001 <= k < _po_id s).
Proof.
  intros R. destruct (reachable_shape s R) as ((Wc & Ws & Wi & Wo) & _).
  repeat split; try (eapply wk_get; eassumption).
  all: match goal with
       | W : well_keyed _ _ _ ?d, H : Py.get _ ?d = Some _ |- _ =>
           destruct (wk_get _ _ _ _ _ _ W H) as [[? ?] ?]; assumption
       end.
Qed.

Lemma X1_witness :
  InventoryItem.itemID
    (InventoryItem.mk 1003 "Croissant"
       (S754_finite false 0x13333333333333 (-51)) 1 2 6 6 24) = 1003
  /\ 1001 <= 1003 < _item_id seeded.
Proof.
  destruct (X1_identifiers seeded) as (_ & _ & H & _).
  - apply run_reachable. apply reach_init.
  - apply (H 1003). vm_compute. reflexivity.
Defined.

(** X2.  No call removes anything: a key of the category, supplier, item
    or order dictionary is still a key of it after any call, in any
    state, and no counter goes down. *)
Theorem X2_nothing_removed (c : call) (s : t) :
  (forall k, Py.mem k (categories s) = true ->
             Py.mem k (categories (after c s)) = true)
  /\ (forall k, Py.mem k (suppliers s) = true ->
                Py.mem k (suppliers (after c s)) = true)
  /\ (forall k, Py.mem k (items s) = true ->
                Py.mem k (items (after c s)) = true)
  /\ (forall k, Py.mem k (orders s) = true ->
                Py.mem k (orders (after c s)) = true)
  /\ _cat_id s <= _cat_id (after c s)
  /\ _sup_id s <= _sup_id (after c s)
  /\ _item_id s <= _item_id (after c s)
  /\ _po_id s <= _po_id (after c s).
Proof.
  unfold after, perform, discard. destruct c; simpl.
  - repeat split; auto using mem_set; lia.
  - repeat split; auto using mem_set; lia.
  - rewrite add_item_eq.
    destruct (Py.mem category_id (categories s)); simpl;
      [|repeat split; auto; lia].
    destruct (Py.mem supplier_id (suppliers s)); simpl;
      repeat split; auto using mem_set; lia.
  - repeat split; auto; lia.
  - rewrite add_stock_eq.
    destruct (Py.get item_id (items s)); simpl; repeat split; auto; try lia.
    intros k. now rewrite mem_alter.
  - rewrite consume_stock_eq.
    destruct (Py.get item_id (items s)) as [item|]; simpl;
      [|repeat split; auto; lia].
    destruct (InventoryItem.currentStock item >=? Z.max 0 qty); simpl;
      repeat split; auto; try lia.
    intros k. now rewrite mem_alter.
  - repeat split; auto; lia.
  - rewrite create_purchase_order_eq.
    destruct (Py.mem supplier_id (suppliers s)); simpl;
      repeat split; auto using mem_set; lia.
  - rewrite create_order_for_item_eq.
    destruct (Py.get item_id (items s)) as [item|]; simpl;
      [|repeat split; auto; lia].
    destruct (Py.mem (InventoryItem.supplierID item) (suppliers s)); simpl;
      repeat split; auto; try lia.
    intros k Hk. rewrite mem_alter. now apply mem_set.
  - rewrite submit_order_eq.
    destruct (Py.get order_id (orders s)); simpl; repeat split; auto; try lia.
    intros k. now rewrite mem_alter.
  - rewrite receive_order_eq.
    destruct (Py.get order_id (orders s)); simpl; repeat split; auto; try lia.
    + intros k. now rewrite mem_received.
    + intros k. now rewrite mem_alter.
  - rewrite cancel_order_eq.
    destruct (Py.get order_id (orders s)); simpl; repeat split; auto; try lia.
    intros k. now rewrite mem_alter.
  - repeat split; auto; lia.
  - repeat split; auto; lia.
Qed.

Lemma X2_witness :
  Py.mem 1003 (items (after (Receive_order 1) seeded)) = true.
Proof.
  destruct (X2_nothing_removed (Receive_order 1) seeded) as (_ & _ & H & _).
  apply H. reflexivity.
Defined.

End Frame.


Section StoredEntities.
Import InventorySystem Session.

(** what one call keeps of the stored entities, in a state whose keys
    come from the counters *)
Lemma step_frame_ids (c : call) (s : t) :
  ids_ok s ->
  (forall k v, Py.get k (categories s) = Some v ->
               Py.get k (categories (after c s)) = Some v)
  /\ (forall k v, Py.get k (suppliers s) = Some v ->
                  Py.get k (suppliers (after c s)) = Some v)
  /\ (forall k it, Py.get k (items s) = Some it ->
        exists w, Py.get k (items (after c s))
                  = Some (InventoryItem.set_currentStock w it))
  /\ (forall k po, Py.get k (orders s) = Some po ->
        exists st, Py.get k (orders (after c s))
                   = Some (PurchaseOrder.set_status st po)).
Proof.
  intros (Wc & Ws & Wi & Wo).
  pose proof (wk_fresh _ _ _ _ Wc) as Fc.
  pose proof (wk_fresh _ _ _ _ Ws) as Fs.
  pose proof (wk_fresh _ _ _ _ Wi) as Fi.
  pose proof (wk_fresh _ _ _ _ Wo) as Fo.
  assert (Ki : forall k it, Py.get k (items s) = Some it ->
                 exists w, Py.get k (items s)
                           = Some (InventoryItem.set_currentStock w it)).
  { intros k it H. exists (InventoryItem.currentStock it).
    now rewrite set_stock_same. }
  assert (Ko : forall k po, Py.get k (orders s) = Some po ->
                 exists st, Py.get k (orders s)
                            = Some (PurchaseOrder.set_status st po)).
  { intros k po H. exists (PurchaseOrder.status po).
    now rewrite set_status_same. }
  unfold after, perform, discard. destruct c; simpl.
  - repeat split; auto. intros k v H. now apply get_set_other.
  - repeat split; auto. intros k v H. now apply get_set_other.
  - rewrite add_item_eq.
    destruct (Py.mem category_id (categories s)); simpl; [|repeat split; auto].
    destruct (Py.mem supplier_id (suppliers s)); simpl; repeat split; auto.
    intros k it H. exists (InventoryItem.currentStock it).
    rewrite set_stock_same. now apply get_set_other.
  - repeat split; auto.
  - rewrite add_stock_eq.
    destruct (Py.get item_id (items s)); simpl; repeat split; auto.
    intros k it H. now apply get_alter_stock.
  - rewrite consume_stock_eq.
    destruct (Py.get item_id (items s)) as [item|]; simpl; [|repeat split; auto].
    destruct (InventoryItem.currentStock item >=? Z.max 0 qty); simpl;
      repeat split; auto.
    intros k it H. now apply get_alter_stock.
  - repeat split; auto.
  - rewrite create_purchase_order_eq.
    destruct (Py.mem supplier_id (suppliers s)); simpl; repeat split; auto.
    intros k po H. exists (PurchaseOrder.status po).
    rewrite set_status_same. now apply get_set_other.
  - rewrite create_order_for_item_eq.
    destruct (Py.get item_id (items s)) as [item|]; simpl; [|repeat split; auto].
    destruct (Py.mem (InventoryItem.supplierID item) (suppliers s)); simpl;
      repeat split; auto.
    intros k po H. exists (PurchaseOrder.status po).
    rewrite set_status_same, get_alter_ne by congruence.
    now apply get_set_other.
  - rewrite submit_order_eq.
    destruct (Py.get order_id (orders s)); simpl; repeat split; auto.
    intros k po H. now apply get_alter_status.
  - rewrite receive_order_eq.
    destruct (Py.get order_id (orders s)); simpl; repeat split; auto.
    + intros k it H. now apply get_received.
    + intros k po H. now apply get_alter_status.
  - rewrite cancel_order_eq.
    destruct (Py.get order_id (orders s)); simpl; repeat split; auto.
    intros k po H. now apply get_alter_status.
  - repeat split; auto.
  - repeat split; auto.
Qed.

Lemma step_frame (c : call) (s : t) :
  shape_ok s ->
  (forall k v, Py.get k (categories s) = Some v ->
               Py.get k (categories (after c s)) = Some v)
  /\ (forall k v, Py.get k (suppliers s) = Some v ->
                  Py.get k (suppliers (after c s)) = Some v)
  /\ (forall k it, Py.get k (items s) = Some it ->
        exists w, Py.get k (items (after c s))
                  = Some (InventoryItem.set_currentStock w it))
  /\ (forall k po, Py.get k (orders s) = Some po ->
        exists st, Py.get k (orders (after c s))
                   = Some (PurchaseOrder.set_status st po)).
Proof. intros [H _]. now apply step_frame_ids. Qed.

(** X3.  A category or a supplier that is registered in a reachable state
    is the same object under the same key after any further sequence of
    calls: no call changes or replaces one. *)
Theorem X3_registries_never_change (s : t) (cs : list call) :
  reachable s ->
  (forall k c, Py.get k (categories s) = Some c ->
               Py.get k (categories (run cs s)) = Some c)
  /\ (forall k sp, Py.get k (suppliers s) = Some sp ->
                   Py.get k (suppliers (run cs s)) = Some sp).
Proof.
  unfold run. revert s. induction cs as [|c cs IH]; simpl; intros s R.
  - auto.
  - destruct (step_frame c s (reachable_shape s R)) as (Hc & Hs & _).
    destruct (IH (after c s) (reach_call c s R)) as [IHc IHs].
    split; auto.
Qed.

Lemma X3_witness :
  Py.get 2 (suppliers (run [Add_supplier "New" "n"; Cancel_order 1] seeded))
  = Some (Supplier.mk 2 "Sunrise Bakery" "orders@sunrise.com / (555) 222-3456").
Proof.
  apply (X3_registries_never_change seeded
           [Add_supplier "New" "n"; Cancel_order 1]).
  - apply run_reachable. apply reach_init.
  - reflexivity.
Defined.

End StoredEntities.


(** ** New entities *)

Section Creation.
Import InventorySystem Session.

Lemma alter_snoc {V} (f : V -> V) (d : Py.dict V) k v :
  Py.get k d = None ->
  Py.alter f k (d ++ [(k, v)])%list = (d ++ [(k, f v)])%list.
Proof.
  induction d as [|[k' v'] d IH]; simpl.
  - now rewrite Z.eqb_refl.
  - destruct (k =? k'); [discriminate|]. intros H. now rewrite IH.
Qed.

Lemma wk_below {V} (idf : V -> Z) lo n (d : Py.dict V) k :
  well_keyed idf lo n d -> Py.mem k d = true -> k < n.
Proof.
  intros W H. apply mem_get in H. destruct H as [v H].
  destruct (wk_get _ _ _ _ _ _ W H) as [[_ Hk] _]. exact Hk.
Qed.

(** X6.  In a reachable state [add_category] and [add_supplier] return
    the next value of their counter, which is greater than every key in
    use; the new entity goes to the end of its dictionary under that key
    with the name (and the contact) given, and nothing else changes but
    the counter.  Neither method raises, and names may repeat. *)
Theorem X6_registration (s : t) (name contact : string) :
  reachable s ->
  (add_category name s
   = (Return (_cat_id s),
      mk (_item_id s) (_cat_id s + 1) (_sup_id s) (_po_id s)
         (categories s ++ [(_cat_id s, Category.mk (_cat_id s) name)])%list
         (suppliers s) (items s) (orders s))
   /\ forall k, Py.mem k (categories s) = true -> k < _cat_id s)
  /\ (add_supplier name contact s
      = (Return (_sup_id s),
         mk (_item_id s) (_cat_id s) (_sup_id s + 1) (_po_id s)
            (categories s)
            (suppliers s ++ [(_sup_id s, Supplier.mk (_sup_id s) name contact)])%list
            (items s) (orders s))
      /\ forall k, Py.mem k (suppliers s) = true -> k < _sup_id s).
Proof.
  intros R. destruct (reachable_shape s R) as ((Wc & Ws & _ & _) & _).
  split; split.
  - rewrite add_category_eq, (set_new _ _ _ (wk_fresh _ _ _ _ Wc)). reflexivity.
  - intros k. now apply wk_below with (1 := Wc).
  - rewrite add_supplier_eq, (set_new _ _ _ (wk_fresh _ _ _ _ Ws)). reflexivity.
  - intros k. now apply wk_below with (1 := Ws).
Qed.

Lemma X6_witness :
  fst (add_category "Food" seeded) = Return 4
  /\ Py.get 4 (categories (snd (add_category "Food" seeded)))
     = Some (Category.mk 4 "Food").
Proof.
  destruct (X6_registration seeded "Food" "") as [[E _] _].
  - apply run_reachable. apply reach_init.
  - rewrite E. split; reflexivity.
Defined.

(** X7.  In a reachable state [add_item] with a registered category and a
    registered supplier returns the next value of the item counter, which
    is greater than the identifier of every stored item; the new item
    goes to the end of the item dictionary, and no stored item, no other
    collection and no other counter changes. *)
Theorem X7_add_item_appends (name : string) (price : Py.float)
    (category_id supplier_id current_stock reorder_level reorder_qty : Z)
    (s : t) :
  reachable s ->
  Py.mem category_id (categories s) = true ->
  Py.mem supplier_id (suppliers s) = true ->
  add_item name price category_id supplier_id
           current_stock reorder_level reorder_qty s
  = (Return (_item_id s),
     mk (_item_id s + 1) (_cat_id s) (_sup_id s) (_po_id s)
        (categories s) (suppliers s)
        (items s ++
         [(_item_id s,
           InventoryItem.mk (_item_id s) name price category_id supplier_id
             (Z.max 0 current_stock) (Z.max 0 reorder_level)
             (Z.max 1 reorder_qty))])%list
        (orders s))
  /\ forall k, Py.mem k (items s) = true -> k < _item_id s.
Proof.
  intros R Hc Hs. destruct (reachable_shape s R) as ((_ & _ & Wi & _) & _).
  split.
  - rewrite add_item_eq, Hc, Hs. simpl.
    now rewrite (set_new _ _ _ (wk_fresh _ _ _ _ Wi)).
  - intros k. now apply wk_below with (1 := Wi).
Qed.

Lemma X7_witness :
  fst (add_item "Tea" price_1_20 2 1 (-3) 4 0 seeded) = Return 1006
  /\ forall k, Py.mem k (items seeded) = true -> k < 1006.
Proof.
  destruct (X7_add_item_appends "Tea" price_1_20 2 1 (-3) 4 0 seeded) as [E H].
  - apply run_reachable. apply reach_init.
  - reflexivity.
  - reflexivity.
  - rewrite E. split; [reflexivity | exact H].
Defined.

(** X8.  [create_purchase_order] with a supplier that is not registered
    raises "Supplier not found" and changes nothing, in any state.  In a
    reachable state, with a registered supplier, it returns the next
    value of the order counter, greater than every order identifier in
    use, and puts at the end of the order dictionary an order with that
    identifier, the date of the day, the supplier, the status OPEN and no
    line; nothing else changes but the counter. *)
Theorem X8_create_purchase_order (today : string) (supplier_id : Z) (s : t) :
  (Py.mem supplier_id (suppliers s) = false ->
   create_purchase_order today supplier_id s
   = (Raise (ValueError "Supplier not found"), s))
  /\ (reachable s ->
      Py.mem supplier_id (suppliers s) = true ->
      create_purchase_order today supplier_id s
      = (Return (_po_id s),
         mk (_item_id s) (_cat_id s) (_sup_id s) (_po_id s + 1)
            (categories s) (suppliers s) (items s)
            (orders s ++
             [(_po_id s,
               PurchaseOrder.mk (_po_id s) today supplier_id "OPEN" [])])%list)
      /\ forall k, Py.mem k (orders s) = true -> k < _po_id s).
Proof.
  rewrite create_purchase_order_eq. split.
  - intros ->. reflexivity.
  - intros R ->. simpl.
    destruct (reachable_shape s R) as ((_ & _ & _ & Wo) & _). split.
    + now rewrite (set_new _ _ _ (wk_fresh _ _ _ _ Wo)).
    + intros k. now apply wk_below with (1 := Wo).
Qed.

Lemma X8_witness :
  create_purchase_order "2024-01-01" 9 seeded
  = (Raise (ValueError "Supplier not found"), seeded)
  /\ fst (create_purchase_order "2024-01-01" 2 seeded) = Return 5001.
Proof.
  split.
  - apply (X8_create_purchase_order "2024-01-01" 9 seeded). reflexivity.
  - destruct (X8_create_purchase_order "2024-01-01" 2 seeded) as [_ H].
    destruct H as [E _].
    + apply run_reachable. apply reach_init.
    + reflexivity.
    + rewrite E. reflexivity.
Defined.

(** X9.  In a reachable state [create_order_for_item] on a stored item
    returns the next value of the order counter and puts at the end of
    the order dictionary an OPEN order for the supplier of the item with
    one line, for that item.  The quantity of the line is [max(0, qty)]
    when a quantity is given, and the reorder quantity of the item, which
    is at least 1, when none is.  The items, the stocks, the registries
    and the orders already stored do not change. *)
Theorem X9_create_order_for_item (today : string) (item_id : Z)
    (qty : option Z) (item : InventoryItem.t) (s : t) :
  reachable s ->
  Py.get item_id (items s) = Some item ->
  create_order_for_item today item_id qty s
  = (Return (_po_id s),
     mk (_item_id s) (_cat_id s) (_sup_id s) (_po_id s + 1)
        (categories s) (suppliers s) (items s)
        (orders s ++
         [(_po_id s,
           PurchaseOrder.mk (_po_id s) today (InventoryItem.supplierID item)
             "OPEN"
             [(item_id, match qty with
                        | Some q => Z.max 0 q
                        | None => InventoryItem.reorderQty item
                        end)])])%list)
  /\ 1 <= InventoryItem.reorderQty item.
Proof.
  intros R E.
  destruct (reachable_shape s R) as ((_ & _ & _ & Wo) & Hl & _).
  destruct (reachable_inv s R) as (_ & _ & Hr).
  unfold refs_ok in Hr. rewrite Forall_forall in Hr.
  destruct (Hr item (get_In_values _ _ _ E)) as [Hs _].
  unfold levels_ok in Hl. rewrite Forall_forall in Hl.
  destruct (Hl item (get_In_values _ _ _ E)) as [_ Hq].
  split; [|assumption].
  rewrite create_order_for_item_eq, E, Hs. simpl.
  pose proof (wk_fresh _ _ _ _ Wo) as Fo.
  rewrite (set_new _ _ _ Fo), (alter_snoc _ _ _ _ Fo).
  unfold PurchaseOrder.add_item. simpl.
  destruct qty as [q|]; [reflexivity|].
  now rewrite Z.max_r by lia.
Qed.

Lemma X9_witness :
  fst (create_order_for_item "2024-01-01" 1003 None seeded) = Return 5001
  /\ option_map PurchaseOrder.items
       (Py.get 5001
          (orders (snd (create_order_for_item "2024-01-01" 1003 None seeded))))
     = Some [(1003, 24)].
Proof.
  destruct (X9_create_order_for_item "2024-01-01" 1003 None
              (InventoryItem.mk 1003 "Croissant"
                 (S754_finite false 0x13333333333333 (-51)) 1 2 6 6 24)
              seeded) as [E _].
  - apply run_reachable. apply reach_init.
  - reflexivity.
  - rewrite E. split; reflexivity.
Defined.

End Creation.


(** ** The life of an order *)

Section OrderLife.
Import InventorySystem Session.

(** X10.  [submit_order] and [cancel_order] on a stored order return and
    set its status to SUBMITTED and to CANCELED, whatever the status was
    (an order that is RECEIVED or CANCELED is taken as well); the lines of
    the order, the other orders, the items with their stocks, the
    registries and the counters do not change.  With no such order they
    raise "Order not found". *)
Theorem X10_submit_and_cancel (order_id : Z) (s : t) :
  (forall po, Py.get order_id (orders s) = Some po ->
     (fst (submit_order order_id s) = Return tt
      /\ Py.get order_id (orders (snd (submit_order order_id s)))
         = Some (PurchaseOrder.set_status "SUBMITTED" po)
      /\ (forall k, k <> order_id ->
            Py.get k (orders (snd (submit_order order_id s)))
            = Py.get k (orders s))
      /\ set_orders (orders s) (snd (submit_order order_id s)) = s)
     /\ (fst (cancel_order order_id s) = Return tt
         /\ Py.get order_id (orders (snd (cancel_order order_id s)))
            = Some (PurchaseOrder.set_status "CANCELED" po)
         /\ (forall k, k <> order_id ->
               Py.get k (orders (snd (cancel_order order_id s)))
               = Py.get k (orders s))
         /\ set_orders (orders s) (snd (cancel_order order_id s)) = s))
  /\ (Py.get order_id (orders s) = None ->
      submit_order order_id s = (Raise (ValueError "Order not found"), s)
      /\ cancel_order order_id s = (Raise (ValueError "Order not found"), s)).
Proof.
  rewrite submit_order_eq, cancel_order_eq. split.
  - intros po E. rewrite E. simpl. split.
    + repeat split.
      * now rewrite get_alter_eq, E.
      * intros k Hk. now apply get_alter_ne.
      * now destruct s.
    + repeat split.
      * now rewrite get_alter_eq, E.
      * intros k Hk. now apply get_alter_ne.
      * now destruct s.
  - intros E. rewrite E. split; reflexivity.
Qed.

Lemma X10_witness :
  option_map PurchaseOrder.status
    (Py.get 5001 (orders (snd (cancel_order 5001 (run demo init)))))
  = Some "CANCELED"
  /\ submit_order 7 (run demo init)
     = (Raise (ValueError "Order not found"), run demo init).
Proof.
  destruct (X10_submit_and_cancel 5001 (run demo init)) as [H _].
  destruct (H (PurchaseOrder.mk 5001 "2024-01-01" 1 "RECEIVED" [(1001, 12)])
              eq_refl) as [_ (_ & E & _)].
  destruct (X10_submit_and_cancel 7 (run demo init)) as [_ H7].
  assert (E7 : Py.get 7 (orders (run demo init)) = None)
    by (vm_compute; reflexivity).
  split.
  - rewrite E. reflexivity.
  - exact (proj1 (H7 E7)).
Defined.

Lemma get_absent (lines : Py.dict Z) k :
  ~ In k (map fst lines) -> Py.get k lines = None.
Proof.
  induction lines as [|[k' q] lines IH]; simpl; intros H; [reflexivity|].
  destruct (k =? k') eqn:E.
  - apply Z.eqb_eq in E. exfalso. apply H. left. congruence.
  - apply IH. intros Hin. apply H. now right.
Qed.

Lemma received_get lines d k it :
  NoDup (map fst lines) ->
  Py.get k d = Some it ->
  Py.get k (received lines d)
  = Some (InventoryItem.set_currentStock
            (InventoryItem.currentStock it + line_qty lines k) it).
Proof.
  unfold received. revert d it.
  induction lines as [|[k0 q] lines IH]; simpl; intros d it Hnd H.
  - unfold line_qty. simpl. now rewrite Z.add_0_r, set_stock_same.
  - inversion Hnd as [|? ? Hk0 Hnd']; subst.
    unfold receive_one at 2. simpl.
    destruct (Z.eq_dec k k0) as [->|Hne].
    + rewrite H. rewrite (IH _ (InventoryItem.set_currentStock
                                  (InventoryItem.currentStock it + q) it) Hnd').
      * unfold line_qty. simpl. rewrite Z.eqb_refl, (get_absent _ _ Hk0).
        simpl. unfold InventoryItem.set_currentStock. simpl.
        do 2 f_equal. lia.
      * now rewrite get_alter_eq, H.
    + assert (H' : Py.get k (match Py.get k0 d with
                            | Some item =>
                                Py.alter (InventoryItem.set_currentStock
                                            (InventoryItem.currentStock item + q))
                                         k0 d
                            | None => d
                            end) = Some it).
      { destruct (Py.get k0 d); [now rewrite get_alter_ne|assumption]. }
      rewrite (IH _ it Hnd' H'). unfold line_qty. simpl.
      apply Z.eqb_neq in Hne. now rewrite Hne.
Qed.

(** X11.  [receive_order] on a stored order, the lines of which have
    distinct items as the lines of a dict do: it returns; every stored
    item has afterwards its stock plus the quantity the order has for it
    (plus 0 when the order has no line for it) and is the same
    otherwise; a line for an item that is not stored is passed over, and
    no item is added; the status of the order is RECEIVED and its lines
    are kept. *)
Theorem X11_receive_order_adds_lines (order_id : Z) (po : PurchaseOrder.t)
    (s : t) :
  Py.get order_id (orders s) = Some po ->
  NoDup (map fst (PurchaseOrder.items po)) ->
  let s' := snd (receive_order order_id s) in
  fst (receive_order order_id s) = Return tt
  /\ (forall k it, Py.get k (items s) = Some it ->
        Py.get k (items s')
        = Some (InventoryItem.set_currentStock
                  (InventoryItem.currentStock it
                   + line_qty (PurchaseOrder.items po) k) it))
  /\ (forall k it, Py.get k (items s) = Some it ->
        stock_at (items s') k
        = Some (InventoryItem.currentStock it
                + line_qty (PurchaseOrder.items po) k)
        /\ exists it', Py.get k (items s') = Some it'
                       /\ same_but_stock it it')
  /\ (forall k, Py.mem k (items s') = Py.mem k (items s))
  /\ List.length (items s') = List.length (items s)
  /\ Py.get order_id (orders s')
     = Some (PurchaseOrder.set_status "RECEIVED" po)
  /\ status_at (orders s') order_id = Some "RECEIVED"
  /\ option_map PurchaseOrder.items (Py.get order_id (orders s'))
     = Some (PurchaseOrder.items po)
  /\ (forall k, k <> order_id ->
        Py.get k (orders s') = Py.get k (orders s)).
Proof.
  intros E Hnd s'. subst s'. rewrite receive_order_eq, E. simpl.
  split; [reflexivity|]. split; [|split; [|split; [|split]]].
  - intros k it H. now apply received_get.
  - intros k it H. unfold stock_at.
    assert (G : Py.get k (received (Py.items (PurchaseOrder.items po)) (items s))
                = Some (InventoryItem.set_currentStock
                          (InventoryItem.currentStock it
                           + line_qty (PurchaseOrder.items po) k) it))
      by (now apply received_get).
    rewrite G. simpl. split; [reflexivity|].
    eexists. split; [reflexivity|]. repeat split.
  - intros k. apply mem_received.
  - apply received_length.
  - unfold status_at. rewrite get_alter_eq, E. simpl.
    repeat split. intros k Hk. now apply get_alter_ne.
Qed.

Lemma X11_witness :
  (status_at (orders two_line_state) 5001 = Some "OPEN"
   /\ stock_at (items two_line_state) 1002 = Some 2)
  /\ stock_at (items (snd (receive_order 5001 two_line_state))) 1002 = Some 5
  /\ status_at (orders (snd (receive_order 5001 two_line_state))) 5001
     = Some "RECEIVED"
  /\ option_map PurchaseOrder.items
       (Py.get 5001 (orders (snd (receive_order 5001 two_line_state))))
     = Some [(1001, 5); (1002, 3)].
Proof.
  destruct (X11_receive_order_adds_lines 5001
              (PurchaseOrder.mk 5001 "2024-01-01" 1 "OPEN" [(1001, 5); (1002, 3)])
              two_line_state) as (_ & _ & H & _ & _ & _ & St & L & _).
  - reflexivity.
  - repeat constructor; simpl; intuition discriminate.
  - destruct (H 1002 (InventoryItem.mk 1002 "Tea" price_1_20 1 1 2 8 12) eq_refl)
      as [S _].
    split; [split; vm_compute; reflexivity|].
    split; [exact S|]. split; [exact St | exact L].
Defined.

End OrderLife.


(** ** The actions of the menu, and the reports *)

Section MenuAndReports.
Import InventorySystem Session.

Lemma filter_sorted {A} (key : A -> Z) (p : A -> bool) (l : list A) :
  StronglySorted Z.lt (map key l) ->
  StronglySorted Z.lt (map key (filter p l)).
Proof.
  induction l as [|x l IH]; simpl; intros H; [constructor|].
  inversion H as [|? ? Hs Hx]; subst.
  destruct (p x); simpl; [|now apply IH].
  constructor; [now apply IH|].
  rewrite Forall_map in *. rewrite Forall_forall in *.
  intros y Hy. apply Hx. apply filter_In in Hy. tauto.
Qed.

(** the state after [create_order_for_item] and [submit_order] *)
Lemma order_and_submit_eq today item_id qty item s :
  reachable s ->
  Py.get item_id (items s) = Some item ->
  order_and_submit today item_id qty s
  = (Return (_po_id s),
     mk (_item_id s) (_cat_id s) (_sup_id s) (_po_id s + 1)
        (categories s) (suppliers s) (items s)
        (orders s ++
         [(_po_id s,
           PurchaseOrder.mk (_po_id s) today (InventoryItem.supplierID item)
             "SUBMITTED"
             [(item_id, match qty with
                        | Some q => Z.max 0 q
                        | None => InventoryItem.reorderQty item
                        end)])])%list).
Proof.
  intros R E.
  destruct (reachable_shape s R) as ((_ & _ & _ & Wo) & Hl & _).
  destruct (reachable_inv s R) as (_ & _ & Hr).
  unfold refs_ok in Hr. rewrite Forall_forall in Hr.
  destruct (Hr item (get_In_values _ _ _ E)) as [Hs _].
  unfold levels_ok in Hl. rewrite Forall_forall in Hl.
  destruct (Hl item (get_In_values _ _ _ E)) as [_ Hq].
  pose proof (wk_fresh _ _ _ _ Wo) as Fo.
  unfold order_and_submit, bind.
  rewrite create_order_for_item_eq, E, Hs. simpl.
  rewrite submit_order_eq. simpl.
  rewrite get_alter_eq, get_set_eq. simpl. unfold ret, set_orders. simpl.
  rewrite alter_alter, (set_new _ _ _ Fo), (alter_snoc _ _ _ _ Fo).
  unfold PurchaseOrder.add_item. simpl.
  destruct qty as [q|]; [reflexivity|].
  now rewrite Z.max_r by lia.
Qed.

(** X12.  Choice 7 of the menu, [create_order_for_item] and then
    [submit_order] on the identifier it returned: in a reachable state,
    for a stored item, neither call raises; the order dictionary has one
    more order at its end, SUBMITTED, for the supplier of the item, with
    one line for the item ([max(0, qty)], or the reorder quantity of the
    item when the quantity is left blank); no stock changes. *)
Theorem X12_order_and_submit (today : string) (item_id : Z) (qty : option Z)
    (item : InventoryItem.t) (s : t) :
  reachable s ->
  Py.get item_id (items s) = Some item ->
  order_and_submit today item_id qty s
  = (Return (_po_id s),
     mk (_item_id s) (_cat_id s) (_sup_id s) (_po_id s + 1)
        (categories s) (suppliers s) (items s)
        (orders s ++
         [(_po_id s,
           PurchaseOrder.mk (_po_id s) today (InventoryItem.supplierID item)
             "SUBMITTED"
             [(item_id, match qty with
                        | Some q => Z.max 0 q
                        | None => InventoryItem.reorderQty item
                        end)])])%list).
Proof. apply order_and_submit_eq. Qed.

Lemma X12_witness :
  fst (order_and_submit "2024-01-01" 1004 (Some (-2)) seeded) = Return 5001
  /\ Py.get 5001
       (orders (snd (order_and_submit "2024-01-01" 1004 (Some (-2)) seeded)))
     = Some (PurchaseOrder.mk 5001 "2024-01-01" 1 "SUBMITTED" [(1004, 0)]).
Proof.
  assert (R : reachable seeded) by (apply run_reachable; apply reach_init).
  assert (E : Py.get 1004 (items seeded)
              = Some (InventoryItem.mk 1004 "Sugar Packets (box)"
                        (S754_finite false 0x13f5c28f5c28f6 (-50)) 3 1 3 5 10))
    by (vm_compute; reflexivity).
  rewrite (X12_order_and_submit "2024-01-01" 1004 (Some (-2)) _ seeded R E).
  split; vm_compute; reflexivity.
Defined.

(** X13.  An order for a stored item with the default quantity, submitted
    and received (choice 7 with a blank quantity, then choice 9 on the
    order): in a reachable state no call raises, the stock of the item
    grows by its reorder quantity, which is 1 at least, every other item
    is as before, and the order, the last of the order dictionary, is
    RECEIVED. *)
Theorem X13_restock (today : string) (item_id : Z) (item : InventoryItem.t)
    (s : t) :
  reachable s ->
  Py.get item_id (items s) = Some item ->
  let s' := snd (restock today item_id s) in
  fst (restock today item_id s) = Return (_po_id s)
  /\ Py.get item_id (items s')
     = Some (InventoryItem.set_currentStock
               (InventoryItem.currentStock item + InventoryItem.reorderQty item)
               item)
  /\ InventoryItem.currentStock item
     < InventoryItem.currentStock item + InventoryItem.reorderQty item
  /\ (forall k, k <> item_id -> Py.get k (items s') = Py.get k (items s))
  /\ Py.get (_po_id s) (orders s')
     = Some (PurchaseOrder.mk (_po_id s) today (InventoryItem.supplierID item)
               "RECEIVED" [(item_id, InventoryItem.reorderQty item)]).
Proof.
  intros R E s'. subst s'.
  destruct (reachable_shape s R) as ((_ & _ & _ & Wo) & Hl & _).
  unfold levels_ok in Hl. rewrite Forall_forall in Hl.
  destruct (Hl item (get_In_values _ _ _ E)) as [_ Hq].
  pose proof (wk_fresh _ _ _ _ Wo) as Fo.
  unfold restock, bind. rewrite (order_and_submit_eq _ _ _ _ _ R E).
  rewrite receive_order_eq. simpl.
  rewrite <- (set_new _ _ _ Fo), get_set_eq. simpl.
  unfold received, receive_one. simpl. rewrite E.
  repeat split.
  - now rewrite get_alter_eq, E.
  - lia.
  - intros k Hk. now apply get_alter_ne.
  - now rewrite get_alter_eq, get_set_eq.
Qed.

Lemma X13_witness :
  option_map InventoryItem.currentStock
    (Py.get 1004 (items (snd (restock "2024-01-01" 1004 seeded))))
  = Some 13.
Proof.
  assert (R : reachable seeded) by (apply run_reachable; apply reach_init).
  assert (E : Py.get 1004 (items seeded)
              = Some (InventoryItem.mk 1004 "Sugar Packets (box)"
                        (S754_finite false 0x13f5c28f5c28f6 (-50)) 3 1 3 5 10))
    by (vm_compute; reflexivity).
  destruct (X13_restock "2024-01-01" 1004 _ seeded R E) as (_ & H & _).
  rewrite H. reflexivity.
Defined.

(** X14.  [low_stock_items] returns, and leaves the state as it is, the
    stored items whose stock is at most their reorder level, an item at
    its reorder level included, in the order of the item dictionary.  In
    a reachable state that is the ascending order of their identifiers,
    so no item comes twice. *)
Theorem X14_low_stock_items (s : t) :
  exists result,
    low_stock_items s = (Return result, s)
    /\ (forall it, In it result <->
          In it (Py.values (items s))
          /\ InventoryItem.currentStock it <= InventoryItem.reorderLevel it)
    /\ (reachable s ->
        StronglySorted Z.lt (map InventoryItem.itemID result)).
Proof.
  eexists. split; [reflexivity|]. split.
  - intros it. rewrite filter_In, Z.leb_le. reflexivity.
  - intros R. destruct (reachable_shape s R) as ((_ & _ & Wi & _) & _).
    apply filter_sorted. eapply wk_values_sorted. eassumption.
Qed.

Lemma X14_witness :
  exists result,
    low_stock_items seeded = (Return result, seeded)
    /\ StronglySorted Z.lt (map InventoryItem.itemID result).
Proof.
  destruct (X14_low_stock_items seeded) as (result & E & _ & H).
  exists result. split; [exact E|].
  apply H. apply run_reachable. apply reach_init.
Defined.

(** X15.  In a reachable state the dictionaries are in the order of their
    keys, so sorting changes nothing: the rows of [inventory_table] after
    the header are the rows of the items in the order they were added,
    and the rows of [orders_table] those of the orders in the order they
    were created. *)
Theorem X15_tables_in_insertion_order (s : t) :
  reachable s ->
  inventory_table s
  = (Return (inventory_header ::
             map InventoryItem.to_row (Py.values (items s))), s)
  /\ orders_table s
     = (Return (orders_header :: map order_row (Py.values (orders s))), s).
Proof.
  intros R. destruct (reachable_shape s R) as ((_ & _ & Wi & Wo) & _).
  unfold inventory_table, orders_table, read.
  rewrite (sorted_ascending _ _ (wk_values_sorted _ _ _ _ Wi)).
  rewrite (sorted_ascending _ _ (wk_values_sorted _ _ _ _ Wo)).
  split; reflexivity.
Qed.

Lemma X15_witness :
  fst (inventory_table seeded)
  = Return (inventory_header ::
            map InventoryItem.to_row (Py.values (items seeded))).
Proof.
  destruct (X15_tables_in_insertion_order seeded) as [E _].
  - apply run_reachable. apply reach_init.
  - rewrite E. reflexivity.
Defined.

End MenuAndReports.


(** ** The table printer *)

Section PrintTable.

Lemma length_append (a b : string) :
  String.length (a ++ b) = (String.length a + String.length b)%nat.
Proof. induction a as [|c a IH]; simpl; [reflexivity | now rewrite IH]. Qed.

Lemma mul_length (c : string) (n : nat) :
  String.length (Py.mul c n) = (n * String.length c)%nat.
Proof.
  induction n as [|n IH]; simpl; [reflexivity|].
  now rewrite length_append, IH.
Qed.

Lemma ljust_length (s : string) (w : nat) :
  (String.length s <= w)%nat -> String.length (Py.ljust s w) = w.
Proof.
  intros H. unfold Py.ljust. rewrite length_append, mul_length. simpl. lia.
Qed.

Lemma no_nil_row (n : nat) (rows : list (list string)) :
  Forall (fun r => List.length r = S n) rows -> existsb Py.is_nil rows = false.
Proof.
  induction 1 as [|r rows Hr _ IH]; simpl; [reflexivity|].
  rewrite IH. destruct r; [discriminate Hr | reflexivity].
Qed.

(** every cell of a table whose rows have all [n] cells fits the width of
    its column *)
Lemma widths_fit (n : nat) (rows : list (list string)) :
  Forall (fun r => List.length r = n) rows ->
  let ws := map (fun col => list_max (map String.length col))
                (Py.zip_star_upto n rows) in
  List.length ws = n
  /\ Forall (fun row => Forall2 (fun c w => (String.length c <= w)%nat) row ws)
            rows.
Proof.
  revert rows. induction n as [|n IH]; intros rows H; simpl.
  - split; [reflexivity|]. eapply Forall_impl; [|exact H].
    intros row Hr. destruct row; [constructor | discriminate Hr].
  - rewrite (no_nil_row n rows H). simpl.
    assert (Ht : Forall (fun r => List.length r = n) (map (@tl string) rows)).
    { rewrite Forall_map. eapply Forall_impl; [|exact H].
      intros row Hr. destruct row; [discriminate Hr|]. simpl in *. lia. }
    destruct (IH _ Ht) as [Hlen Hfit]. split; [now rewrite Hlen|].
    rewrite Forall_map in Hfit. rewrite Forall_forall in *.
    intros row Hin. pose proof (H row Hin) as Hr. pose proof (Hfit row Hin) as Hf.
    destruct row as [|c row]; [discriminate Hr|]. simpl in Hf.
    constructor; [|exact Hf].
    assert (Hmax : Forall (fun k => (k <= list_max
                                        (map String.length (map (hd "") rows)))%nat)
                          (map String.length (map (hd "") rows)))
      by (apply list_max_le; lia).
    rewrite Forall_forall in Hmax. apply Hmax.
    apply in_map. apply (in_map (hd "") rows (c :: row)). assumption.
Qed.

Lemma cells_from_fit (pre ws : list nat) (row : list string) :
  Forall2 (fun c w => (String.length c <= w)%nat) row ws ->
  exists cells,
    cells_from (pre ++ ws) (List.length pre) row = Some cells
    /\ Forall2 (fun cell w => String.length cell = w) cells ws.
Proof.
  intros H. revert pre. induction H as [|c w row ws Hc _ IH]; intros pre; simpl.
  - exists []. split; [reflexivity | constructor].
  - rewrite nth_error_app2, Nat.sub_diag by lia. simpl.
    destruct (IH (pre ++ [w])%list) as (cells & E & Hcells).
    rewrite <- app_assoc, length_app in E. simpl in E.
    rewrite Nat.add_1_r in E. rewrite E. simpl.
    eexists. split; [reflexivity|].
    constructor; [now apply ljust_length | assumption].
Qed.

Lemma join_length (sep : string) (cells : list string) (ws : list nat) :
  Forall2 (fun cell w => String.length cell = w) cells ws ->
  String.length (Py.join sep cells)
  = (list_sum ws + String.length sep * (List.length ws - 1))%nat.
Proof.
  induction 1 as [|c w cells ws Hc Hrest IH]; [simpl; lia|].
  destruct Hrest as [|c' w' cells' ws' Hc' Hrest'].
  - simpl. lia.
  - change (Py.join sep (c :: c' :: cells'))
      with (c ++ sep ++ Py.join sep (c' :: cells')).
    rewrite !length_append, IH, Hc. simpl. lia.
Qed.

Lemma dashes_length (ws : list nat) :
  Forall2 (fun cell w => String.length cell = w) (map (Py.mul "-") ws) ws.
Proof.
  induction ws as [|w ws IH]; simpl; constructor; [|assumption].
  rewrite mul_length. simpl. lia.
Qed.

Lemma print_rows_fit (ws : list nat) (rows : list (list string)) (r : nat) :
  Forall (fun row => Forall2 (fun c w => (String.length c <= w)%nat) row ws)
         rows ->
  exists lines,
    print_rows ws r rows = (lines, None)
    /\ List.length lines
       = (List.length rows
          + match r, rows with O, _ :: _ => 1 | _, _ => 0 end)%nat
    /\ Forall (fun line =>
                 String.length line
                 = (list_sum ws + 3 * (List.length ws - 1))%nat) lines.
Proof.
  intros H. revert r. induction H as [|row rows Hrow _ IH]; intros r.
  - exists []. repeat split; [destruct r; reflexivity | constructor].
  - destruct (cells_from_fit [] ws row Hrow) as (cells & E & Hcells).
    simpl in E. simpl. rewrite E.
    destruct (IH (S r)) as (rest & Er & Hn & Hall). rewrite Er.
    eexists. split; [reflexivity|]. split.
    + rewrite length_app, Hn. destruct r; simpl; destruct rows; simpl; lia.
    + apply Forall_app. split; [|assumption].
      pose proof (join_length " | " _ _ Hcells) as J.
      pose proof (join_length "-+-" _ _ (dashes_length ws)) as D.
      simpl in J, D.
      destruct r; simpl; repeat constructor; lia.
Qed.

Lemma print_table_same_length (rows : list (list string)) (n : nat) :
  rows <> [] ->
  Forall (fun row => List.length row = n) rows ->
  exists lines,
    print_table rows = (lines, None)
    /\ List.length lines = S (List.length rows)
    /\ List.length (widths rows) = n
    /\ Forall (fun line =>
                 String.length line
                 = (list_sum (widths rows) + 3 * (n - 1))%nat) lines.
Proof.
  intros Hne H. destruct rows as [|row rows]; [congruence|].
  assert (Hn : List.length row = n) by (inversion H; assumption).
  unfold print_table, widths, Py.zip_star. rewrite Hn.
  destruct (widths_fit n (row :: rows) H) as [Hlen Hfit].
  destruct (print_rows_fit _ _ 0 Hfit) as (lines & E & Hl & Hall).
  exists lines. rewrite Hlen in Hall.
  repeat split; try assumption. rewrite Hl. simpl. lia.
Qed.

(** X16.  [print_table] on a table that has a row, all rows with the
    same number of cells: no [IndexError] is raised, one line is printed
    for each row and one more, the rule under the first row, and all the
    lines have the same length, the sum of the widths of the columns and 3
    for each separator: the columns are aligned. *)
Theorem X16_print_table_aligned (rows : list (list string)) (n : nat) :
  rows <> [] ->
  Forall (fun row => List.length row = n) rows ->
  exists lines,
    print_table rows = (lines, None)
    /\ List.length lines = S (List.length rows)
    /\ List.length (widths rows) = n
    /\ Forall (fun line =>
                 String.length line
                 = (list_sum (widths rows) + 3 * (n - 1))%nat) lines.
Proof. apply print_table_same_length. Qed.

Lemma X16_witness :
  exists lines,
    print_table [["ID"; "Item"]; ["1001"; "Milk"]; ["1002"; "Tea"]]
    = (lines, None)
    /\ List.length lines = 4%nat
    /\ Forall (fun line => String.length line = 11%nat) lines.
Proof.
  destruct (X16_print_table_aligned
              [["ID"; "Item"]; ["1001"; "Milk"]; ["1002"; "Tea"]] 2)
    as (lines & E & Hl & _ & Hall).
  - discriminate.
  - repeat constructor.
  - exists lines. repeat split; assumption.
Defined.

End PrintTable.


Section PrintTableErrors.
Import InventorySystem.

Lemma zip_upto_short (n : nat) (rows : list (list string)) (row : list string) :
  In row rows ->
  (List.length (Py.zip_star_upto n rows) <= List.length row)%nat.
Proof.
  revert rows row. induction n as [|n IH]; intros rows row Hin; simpl; [lia|].
  destruct (existsb Py.is_nil rows) eqn:E; simpl; [lia|].
  destruct row as [|c row].
  - assert (existsb Py.is_nil rows = true)
      by (apply existsb_exists; exists []; auto).
    congruence.
  - simpl. apply le_n_S. apply IH.
    apply (in_map (@tl string) rows (c :: row)). assumption.
Qed.

Lemma widths_short (rows : list (list string)) (row : list string) :
  In row rows -> (List.length (widths rows) <= List.length row)%nat.
Proof.
  intros Hin. unfold widths, Py.zip_star. rewrite length_map.
  destruct rows as [|r0 rows]; [contradiction|].
  now apply zip_upto_short.
Qed.

Lemma cells_from_some (ws : list nat) (row : list string) (i : nat) cells :
  cells_from ws i row = Some cells ->
  row = [] \/ (i + List.length row <= List.length ws)%nat.
Proof.
  revert i cells. induction row as [|c row IH]; intros i cells H; [now left|].
  right. simpl in H.
  destruct (nth_error ws i) as [w|] eqn:E; [|discriminate].
  assert (Hi : (i < List.length ws)%nat) by (apply nth_error_Some; congruence).
  destruct (cells_from ws (S i) row) as [cs|] eqn:E2; [|discriminate].
  destruct (IH _ _ E2) as [-> | Hle]; simpl; lia.
Qed.

Lemma print_rows_none (ws : list nat) (rows : list (list string)) (r : nat) :
  snd (print_rows ws r rows) = None ->
  Forall (fun row => (List.length row <= List.length ws)%nat) rows.
Proof.
  revert r. induction rows as [|row rows IH]; intros r H; [constructor|].
  simpl in H. destruct (cells_from ws 0 row) as [cells|] eqn:E; [|discriminate].
  destruct (print_rows ws (S r) rows) as [rest e] eqn:Er. simpl in H. subst e.
  constructor.
  - destruct (cells_from_some _ _ _ _ E) as [-> | Hle]; simpl; lia.
  - apply (IH (S r)). now rewrite Er.
Qed.

Lemma print_table_same_length_none (rows : list (list string)) (n : nat) :
  rows <> [] ->
  Forall (fun row => List.length row = n) rows ->
  snd (print_table rows) = None.
Proof.
  intros Hne H. unfold print_table.
  destruct rows as [|row rows]; [congruence|].
  assert (Hn : List.length row = n) by (inversion H; assumption).
  unfold widths, Py.zip_star. rewrite Hn.
  destruct (widths_fit n (row :: rows) H) as [_ Hfit].
  destruct (print_rows_fit _ _ 0 Hfit) as (lines & E & _).
  now rewrite E.
Qed.

(** X17.  [print_table] ends without an exception when all the rows have
    the same number of cells, and only then: with rows of different
    lengths the widths are those of the columns that every row has, and a
    longer row raises [IndexError]. *)
Theorem X17_print_table_raises_on_ragged (rows : list (list string)) :
  snd (print_table rows) = None
  <-> exists n, Forall (fun row => List.length row = n) rows.
Proof.
  split.
  - intros H. exists (List.length (widths rows)).
    destruct rows as [|row rows]; [constructor|].
    assert (Hle : Forall (fun r => (List.length r
                                    <= List.length (widths (row :: rows)))%nat)
                         (row :: rows))
      by (apply (print_rows_none _ _ 0); exact H).
    rewrite Forall_forall in *. intros r Hin.
    pose proof (Hle r Hin). pose proof (widths_short _ _ Hin). lia.
  - intros [n H]. destruct rows as [|row rows]; [reflexivity|].
    apply (print_table_same_length_none _ n); [discriminate | assumption].
Qed.

Lemma X17_witness :
  snd (print_table [["ID"; "Item"]; ["1001"; "Milk"]]) = None.
Proof.
  apply (proj2 (X17_print_table_raises_on_ragged
                  [["ID"; "Item"]; ["1001"; "Milk"]])).
  exists 2%nat. repeat constructor.
Defined.




Lemma str_nonempty (n : Z) : (1 <= String.length (Py.str n))%nat.
Proof.
  destruct (Z_lt_le_dec n 0) as [Hn|Hn].
  - destruct n as [|p|p]; try lia. unfold Py.str. simpl. lia.
  - destruct (str_nonneg n Hn) as [_ H].
    destruct (Py.str n); [congruence | simpl; lia].
Qed.

Lemma join_lines_long (lines : list (Z * Z)) :
  lines <> [] ->
  (3 <= String.length (Py.join ", " (map line_str lines)))%nat.
Proof.
  intros Hne. destruct lines as [|[a b] lines]; [congruence|].
  assert (H3 : (3 <= String.length (line_str (a, b)))%nat).
  { unfold line_str. simpl. rewrite !length_append. simpl.
    pose proof (str_nonempty a). pose proof (str_nonempty b). lia. }
  destruct lines as [|l lines]; [exact H3|].
  change (Py.join ", " (map line_str ((a, b) :: l :: lines)))
    with (line_str (a, b) ++ ", " ++ Py.join ", " (map line_str (l :: lines))).
  rewrite length_append. lia.
Qed.

(** X19.  In a row of [orders_table] the lines cell is "-" for an order
    with no line and for no other order: the lines of an order are
    rendered as [itemID:qty], joined by a comma and a space, which is
    never the empty string and never "-". *)
Theorem X19_placeholder_only_when_empty (po : PurchaseOrder.t) :
  nth 4 (order_row po) "" = "-" <-> PurchaseOrder.items po = [].
Proof.
  unfold order_row, Py.items. simpl. split.
  - intros H. destruct (PurchaseOrder.items po) as [|l lines] eqn:E;
      [reflexivity|].
    pose proof (join_lines_long (l :: lines) ltac:(discriminate)) as H3.
    unfold Py.str_or in H.
    destruct (Py.join ", " (map line_str (l :: lines))) as [|c r] eqn:J;
      [simpl in H3; lia|].
    rewrite H in H3. simpl in H3. lia.
  - intros ->. reflexivity.
Qed.

Lemma X19_witness :
  nth 4 (order_row (PurchaseOrder.mk 5001 "2024-01-01" 1 "OPEN" [])) "" = "-".
Proof.
  apply (proj2 (X19_placeholder_only_when_empty
                  (PurchaseOrder.mk 5001 "2024-01-01" 1 "OPEN" []))).
  reflexivity.
Defined.

End PrintTableErrors.


(** ** Stock received by hand, and the orders for all the low items *)

Section BulkReorder.
Import InventorySystem Session.

(** X20.  [add_stock(item_id, qty)] on a stored item returns and adds
    [max(0, qty)] to its stock, so the stock never goes down and a
    negative quantity changes nothing; the other items and the rest of
    the state are as before.  With no such item it raises "Item not
    found" and the state is the one before. *)
Theorem X20_add_stock (item_id qty : Z) (s : t) :
  (forall item, Py.get item_id (items s) = Some item ->
     fst (add_stock item_id qty s) = Return tt
     /\ Py.get item_id (items (snd (add_stock item_id qty s)))
        = Some (InventoryItem.set_currentStock
                  (InventoryItem.currentStock item + Z.max 0 qty) item)
     /\ InventoryItem.currentStock item
        <= InventoryItem.currentStock item + Z.max 0 qty
     /\ (qty <= 0 -> snd (add_stock item_id qty s) = s)
     /\ (forall k, k <> item_id ->
           Py.get k (items (snd (add_stock item_id qty s)))
           = Py.get k (items s))
     /\ set_items (items s) (snd (add_stock item_id qty s)) = s)
  /\ (Py.get item_id (items s) = None ->
      add_stock item_id qty s = (Raise (ValueError "Item not found"), s)).
Proof.
  rewrite add_stock_eq. split.
  - intros item E. rewrite E. simpl. repeat split.
    + now rewrite get_alter_eq, E.
    + lia.
    + intros Hq. rewrite Z.max_l by lia. rewrite Z.add_0_r.
      rewrite (alter_same _ _ _ item E (set_stock_same item)).
      now destruct s.
    + intros k Hk. now apply get_alter_ne.
    + now destruct s.
  - intros ->. reflexivity.
Qed.

Lemma X20_witness :
  option_map InventoryItem.currentStock
    (Py.get 1001 (items (snd (add_stock 1001 4 (run demo init))))) = Some 23
  /\ snd (add_stock 1001 (-4) (run demo init)) = run demo init.
Proof.
  destruct (X20_add_stock 1001 4 (run demo init)) as [H _].
  destruct (H (InventoryItem.mk 1001 "Milk" price_1_20 1 1 19 8 12) eq_refl)
    as (_ & E & _).
  destruct (X20_add_stock 1001 (-4) (run demo init)) as [H' _].
  destruct (H' (InventoryItem.mk 1001 "Milk" price_1_20 1 1 19 8 12) eq_refl)
    as (_ & _ & _ & E' & _).
  split.
  - rewrite E. reflexivity.
  - apply E'. lia.
Defined.

Lemma In_get {V} (d : Py.dict V) k v :
  StronglySorted Z.lt (map fst d) -> In (k, v) d -> Py.get k d = Some v.
Proof.
  induction d as [|[k' v'] d IH]; simpl; intros Hs Hin; [contradiction|].
  inversion Hs as [|? ? Hs' Hlt]; subst.
  destruct Hin as [Heq | Hin].
  - injection Heq as -> ->. now rewrite Z.eqb_refl.
  - rewrite Forall_forall in Hlt.
    pose proof (Hlt k (in_map fst _ _ Hin)) as Hk. simpl in Hk.
    replace (k =? k') with false by (symmetry; apply Z.eqb_neq; lia).
    now apply IH.
Qed.

Lemma wk_value_get {V} (idf : V -> Z) lo n (d : Py.dict V) v :
  well_keyed idf lo n d -> In v (Py.values d) -> Py.get (idf v) d = Some v.
Proof.
  intros (_ & Hs & H) Hin. unfold Py.values in Hin.
  apply in_map_iff in Hin. destruct Hin as ([k v'] & Hv & Hin).
  simpl in Hv. subst v'. rewrite Forall_forall in H.
  destruct (H _ Hin) as [_ Hid]. simpl in Hid. rewrite Hid.
  now apply In_get.
Qed.

Lemma get_app_none {V} (pre l : Py.dict V) k :
  Py.get k pre = None -> Py.get k (pre ++ l)%list = Py.get k l.
Proof.
  induction pre as [|[k' v'] pre IH]; simpl; [reflexivity|].
  destruct (k =? k'); [discriminate | exact IH].
Qed.

Lemma alter_app_none {V} (f : V -> V) (pre l : Py.dict V) k :
  Py.get k pre = None ->
  Py.alter f k (pre ++ l)%list = (pre ++ Py.alter f k l)%list.
Proof.
  induction pre as [|[k' v'] pre IH]; simpl; [reflexivity|].
  destruct (k =? k'); [discriminate|]. intros H. now rewrite IH.
Qed.

Lemma create_default_order_eq today item_id item s :
  reachable s ->
  Py.get item_id (items s) = Some item ->
  create_order_for_item today item_id None s
  = (Return (_po_id s),
     mk (_item_id s) (_cat_id s) (_sup_id s) (_po_id s + 1)
        (categories s) (suppliers s) (items s)
        (orders s ++
         [(_po_id s,
           PurchaseOrder.mk (_po_id s) today (InventoryItem.supplierID item)
             "OPEN" [(item_id, InventoryItem.reorderQty item)])])%list).
Proof.
  intros R E.
  destruct (reachable_shape s R) as ((_ & _ & _ & Wo) & Hl & _).
  destruct (reachable_inv s R) as (_ & _ & Hr).
  unfold refs_ok in Hr. rewrite Forall_forall in Hr.
  destruct (Hr item (get_In_values _ _ _ E)) as [Hs _].
  unfold levels_ok in Hl. rewrite Forall_forall in Hl.
  destruct (Hl item (get_In_values _ _ _ E)) as [_ Hq].
  rewrite create_order_for_item_eq, E, Hs. simpl.
  pose proof (wk_fresh _ _ _ _ Wo) as Fo.
  rewrite (set_new _ _ _ Fo), (alter_snoc _ _ _ _ Fo).
  unfold PurchaseOrder.add_item. simpl.
  now rewrite Z.max_r by lia.
Qed.

Lemma create_all_eq today (low : list InventoryItem.t) (n : nat) (s : t) :
  reachable s ->
  Forall (fun it => Py.get (InventoryItem.itemID it) (items s) = Some it) low ->
  create_all today n low s
  = (Return (map fst (new_orders today n (_po_id s) "OPEN" low)),
     mk (_item_id s) (_cat_id s) (_sup_id s)
        (_po_id s + Z.of_nat (List.length low))
        (categories s) (suppliers s) (items s)
        (orders s ++ new_orders today n (_po_id s) "OPEN" low)%list).
Proof.
  revert n s. induction low as [|it low IH]; intros n s R H.
  - simpl. unfold ret. rewrite Z.add_0_r, app_nil_r. now destruct s.
  - inversion H as [|? ? Hit Hlow]; subst.
    pose proof (create_default_order_eq (today n) _ _ s R Hit) as E.
    assert (R1 : reachable
                   (snd (create_order_for_item (today n)
                           (InventoryItem.itemID it) None s))).
    { pose proof (reach_call (Create_order_for_item (today n)
                                (InventoryItem.itemID it) None) s R) as R1.
      unfold after, perform, discard in R1.
      destruct (create_order_for_item (today n) (InventoryItem.itemID it) None s)
        as [[a|e] s1]; exact R1. }
    simpl. unfold bind. rewrite E in *. simpl in R1.
    rewrite (IH (S n) _ R1 Hlow). simpl. unfold ret.
    rewrite <- app_assoc. simpl.
    replace (_po_id s + 1 + Z.of_nat (List.length low))
      with (_po_id s + Z.pos (Pos.of_succ_nat (List.length low))) by lia.
    reflexivity.
Qed.

Lemma new_orders_status today n oid st low :
  map (fun kv => (fst kv, PurchaseOrder.set_status st (snd kv)))
      (new_orders today n oid "OPEN" low)
  = new_orders today n oid st low.
Proof.
  revert n oid. induction low as [|it low IH]; intros n oid; simpl;
    [reflexivity|].
  now rewrite IH.
Qed.

Lemma new_orders_length today n oid st low :
  List.length (new_orders today n oid st low) = List.length low.
Proof.
  revert n oid. induction low as [|it low IH]; intros n oid; simpl;
    [reflexivity | now rewrite IH].
Qed.

Lemma new_orders_keys today n oid st low :
  StronglySorted Z.lt (map fst (new_orders today n oid st low))
  /\ Forall (fun k => oid <= k) (map fst (new_orders today n oid st low)).
Proof.
  revert n oid. induction low as [|it low IH]; intros n oid; simpl.
  - split; constructor.
  - destruct (IH (S n) (oid + 1)) as [Hs Hle]. split.
    + constructor; [assumption|].
      eapply Forall_impl; [|exact Hle]. simpl. intros k Hk. lia.
    + constructor; [lia|].
      eapply Forall_impl; [|exact Hle]. simpl. intros k Hk. lia.
Qed.

Lemma submit_all_eq (new pre : Py.dict PurchaseOrder.t) (s : t) :
  orders s = (pre ++ new)%list ->
  StronglySorted Z.lt (map fst new) ->
  Forall (fun k => Py.get k pre = None) (map fst new) ->
  for_each (map fst new) submit_order s
  = (Return tt,
     set_orders
       (pre ++ map (fun kv => (fst kv,
                               PurchaseOrder.set_status "SUBMITTED" (snd kv)))
                   new)%list s).
Proof.
  revert pre s. induction new as [|[k po] new IH]; intros pre s E Hs Hp.
  - simpl. unfold ret. rewrite <- E. now destruct s.
  - simpl in *. inversion Hs as [|? ? Hs' Hlt]; subst.
    inversion Hp as [|? ? Hk Hp']; subst.
    unfold bind. rewrite submit_order_eq, E, (get_app_none _ _ _ Hk). simpl.
    rewrite Z.eqb_refl, (alter_app_none _ _ _ _ Hk). simpl. rewrite Z.eqb_refl.
    rewrite (IH (pre ++ [(k, PurchaseOrder.set_status "SUBMITTED" po)])%list).
    + unfold set_orders. simpl. now rewrite <- app_assoc.
    + simpl. now rewrite <- app_assoc.
    + assumption.
    + rewrite Forall_forall in *. intros k' Hin.
      rewrite get_app_none by (now apply Hp').
      simpl. pose proof (Hlt k' Hin).
      replace (k' =? k) with false by (symmetry; apply Z.eqb_neq; lia).
      reflexivity.
Qed.

(** X21.  Choice 6 of the menu answered "y": [create_order_for_item] with
    the default quantity for each item of [low_stock_items], then
    [submit_order] for each order created.  In a reachable state no call
    raises; the order dictionary has at its end one SUBMITTED order for
    each low item, in the order of the items, numbered on from the order
    counter, for the supplier of the item and with one line, the reorder
    quantity of the item; the number reported is the number of low
    items; no stock and nothing else changes but the order counter. *)
Theorem X21_reorder_low (today : nat -> string) (s : t) :
  reachable s ->
  exists low,
    fst (low_stock_items s) = Return low
    /\ reorder_low today s
       = (Return (List.length low),
          mk (_item_id s) (_cat_id s) (_sup_id s)
             (_po_id s + Z.of_nat (List.length low))
             (categories s) (suppliers s) (items s)
             (orders s ++ new_orders today 0 (_po_id s) "SUBMITTED" low)%list).
Proof.
  intros R. eexists. split; [reflexivity|].
  destruct (reachable_shape s R) as ((_ & _ & Wi & Wo) & _).
  set (low := filter (fun it => InventoryItem.currentStock it
                                <=? InventoryItem.reorderLevel it)
                     (Py.values (items s))).
  assert (Hlow : Forall (fun it => Py.get (InventoryItem.itemID it) (items s)
                                   = Some it) low).
  { apply Forall_forall. intros it Hin. apply filter_In in Hin.
    destruct Hin as [Hin _]. eapply wk_value_get; eassumption. }
  unfold reorder_low, bind. unfold low_stock_items at 1, read. fold low.
  rewrite (create_all_eq today low 0 s R Hlow).
  destruct (new_orders_keys today 0 (_po_id s) "OPEN" low) as [Hs Hle].
  rewrite (submit_all_eq (new_orders today 0 (_po_id s) "OPEN" low) (orders s)).
  - unfold ret, set_orders. simpl.
    now rewrite new_orders_status, length_map, new_orders_length.
  - reflexivity.
  - assumption.
  - destruct Wo as (_ & _ & Hb).
    eapply Forall_impl; [|exact Hle]. simpl. intros k Hk.
    clear - Hb Hk. induction Hb as [|[k' v'] d [[_ Hlt] _] _ IH]; simpl;
      [reflexivity|].
    simpl in Hlt.
    replace (k =? k') with false by (symmetry; apply Z.eqb_neq; lia).
    exact IH.
Qed.

Lemma X21_witness :
  exists low,
    fst (low_stock_items seeded) = Return low
    /\ reorder_low (fun _ => "2024-01-01") seeded
       = (Return (List.length low),
          mk (_item_id seeded) (_cat_id seeded) (_sup_id seeded)
             (_po_id seeded + Z.of_nat (List.length low))
             (categories seeded) (suppliers seeded) (items seeded)
             (orders seeded
              ++ new_orders (fun _ => "2024-01-01") 0 (_po_id seeded)
                   "SUBMITTED" low)%list).
Proof.
  apply (X21_reorder_low (fun _ => "2024-01-01") seeded).
  apply run_reachable. apply reach_init.
Defined.

End BulkReorder.


(** ** Steps that include the lines of a stored order *)

Section Steps.
Import InventorySystem Session.

Lemma add_line_eq order_id item_id qty s :
  add_line order_id item_id qty s =
  match Py.get order_id (orders s) with
  | None => (Raise (KeyError order_id), s)
  | Some _ =>
      (Return tt,
       set_orders (Py.alter (PurchaseOrder.add_item item_id qty) order_id
                            (orders s)) s)
  end.
Proof.
  unfold add_line, bind, getitem, modify.
  destruct (Py.get order_id (orders s)); reflexivity.
Qed.

Lemma same_but_stock_refl it : same_but_stock it it.
Proof. repeat split. Qed.

Lemma same_but_stock_trans a b c :
  same_but_stock a b -> same_but_stock b c -> same_but_stock a c.
Proof.
  unfold same_but_stock. intros H1 H2.
  repeat match goal with H : _ /\ _ |- _ => destruct H end.
  repeat split; congruence.
Qed.

Lemma same_order_head_refl po : same_order_head po po.
Proof. repeat split. Qed.

Lemma same_order_head_trans a b c :
  same_order_head a b -> same_order_head b c -> same_order_head a c.
Proof.
  unfold same_order_head. intros (A1 & A2 & A3) (B1 & B2 & B3).
  repeat split; congruence.
Qed.

Lemma heads_mono (S S' : Py.dict Supplier.t) (l : list PurchaseOrder.t) :
  (forall k, Py.mem k S = true -> Py.mem k S' = true) ->
  Forall (head_ok S) l -> Forall (head_ok S') l.
Proof.
  intros HS H. eapply Forall_impl; [|exact H].
  intros po [H1 H2]. split; auto.
Qed.

Lemma heads_status S d k st :
  is_status st ->
  Forall (head_ok S) (Py.values d) ->
  Forall (head_ok S) (Py.values (Py.alter (PurchaseOrder.set_status st) k d)).
Proof.
  intros Hst H. apply Forall_values_alter; [|assumption].
  intros po Hpo. rewrite Forall_forall in H.
  destruct (H po (get_In_values _ _ _ Hpo)) as [_ H2]. split; assumption.
Qed.

Lemma heads_add_item S d k item_id qty :
  Forall (head_ok S) (Py.values d) ->
  Forall (head_ok S)
         (Py.values (Py.alter (PurchaseOrder.add_item item_id qty) k d)).
Proof.
  intros H. apply Forall_values_alter; [|assumption].
  intros po Hpo. rewrite Forall_forall in H.
  exact (H po (get_In_values _ _ _ Hpo)).
Qed.

Lemma core_init : core_ok init.
Proof.
  repeat split; simpl; try lia; constructor.
Qed.

Local Ltac parts :=
  unfold core_ok, ids_ok; simpl;
  repeat (match goal with |- _ /\ _ => split end); try assumption.

Lemma core_after c s : core_ok s -> core_ok (after c s).
Proof.
  intros ((Wc & Ws & Wi & Wo) & Hl & Ho). unfold after, perform, discard.
  destruct c; simpl.
  - parts. now apply wk_set.
  - parts.
    + now apply wk_set.
    + eapply heads_mono; [|exact Ho]. auto using mem_set.
  - rewrite add_item_eq.
    destruct (Py.mem category_id (categories s)); simpl; [|parts].
    destruct (Py.mem supplier_id (suppliers s)); simpl; [|parts].
    parts.
    + now apply wk_set.
    + unfold levels_ok in *. simpl.
      apply Forall_values_set; [simpl; lia|assumption].
  - parts.
  - rewrite add_stock_eq.
    destruct (Py.get item_id (items s)) as [item|]; simpl; [|parts].
    parts.
    + now apply wk_alter.
    + unfold levels_ok in *. simpl. apply alter_stock_keeps; auto.
  - rewrite consume_stock_eq.
    destruct (Py.get item_id (items s)) as [item|]; simpl; [|parts].
    destruct (InventoryItem.currentStock item >=? Z.max 0 qty); simpl; [|parts].
    parts.
    + now apply wk_alter.
    + unfold levels_ok in *. simpl. apply alter_stock_keeps; auto.
  - parts.
  - rewrite create_purchase_order_eq.
    destruct (Py.mem supplier_id (suppliers s)) eqn:Es; simpl; [|parts].
    parts.
    + now apply wk_set.
    + apply Forall_values_set; [|assumption].
      split; simpl; [left; reflexivity | assumption].
  - rewrite create_order_for_item_eq.
    destruct (Py.get item_id (items s)) as [item|] eqn:E; simpl; [|parts].
    destruct (Py.mem (InventoryItem.supplierID item) (suppliers s)) eqn:Es;
      simpl; [|parts].
    parts.
    + apply wk_alter; [reflexivity|]. now apply wk_set.
    + apply heads_add_item. apply Forall_values_set; [|assumption].
      split; simpl; [left; reflexivity | assumption].
  - rewrite submit_order_eq.
    destruct (Py.get order_id (orders s)); simpl; [|parts].
    parts.
    + now apply wk_alter.
    + apply heads_status; [|assumption]. right. left. reflexivity.
  - rewrite receive_order_eq.
    destruct (Py.get order_id (orders s)) as [po|]; simpl; [|parts].
    parts.
    + now apply wk_received.
    + now apply wk_alter.
    + unfold levels_ok in *. simpl. apply received_keeps; auto.
    + apply heads_status; [|assumption]. right. right. left. reflexivity.
  - rewrite cancel_order_eq.
    destruct (Py.get order_id (orders s)); simpl; [|parts].
    parts.
    + now apply wk_alter.
    + apply heads_status; [|assumption]. right. right. right. reflexivity.
  - parts.
  - parts.
Qed.

Lemma core_act a s : core_ok s -> core_ok (act a s).
Proof.
  destruct a as [c | order_id item_id qty]; simpl; [apply core_after|].
  intros ((Wc & Ws & Wi & Wo) & Hl & Ho). rewrite add_line_eq.
  destruct (Py.get order_id (orders s)); simpl; [|parts].
  parts.
  - now apply wk_alter.
  - now apply heads_add_item.
Qed.

Lemma inv_act a s : inv s -> inv (act a s).
Proof.
  destruct a as [c | order_id item_id qty]; simpl; [apply inv_after|].
  intros (Hs & Hl & Hr). rewrite add_line_eq.
  destruct (Py.get order_id (orders s)); simpl;
    [|repeat split; assumption].
  repeat split; try assumption.
  unfold lines_ok in *. simpl. apply Forall_values_alter; [|assumption].
  intros po Hpo. apply add_item_lines. rewrite Forall_forall in Hl.
  apply (Hl po). eapply get_In_values; eassumption.
Qed.

Lemma by_actions_core s : reachable_by_actions s -> core_ok s.
Proof.
  induction 1 as [|a s _ IH]; [apply core_init | now apply core_act].
Qed.

Lemma by_actions_inv s : reachable_by_actions s -> inv s.
Proof.
  induction 1 as [|a s _ IH]; [apply inv_init | now apply inv_act].
Qed.

Lemma run_actions_reachable l s :
  reachable_by_actions s -> reachable_by_actions (run_actions l s).
Proof.
  unfold run_actions. revert s.
  induction l as [|a l IH]; simpl; intros s H; [assumption|].
  apply IH. now constructor.
Qed.

(** what one step keeps of a stored item and of a stored order *)
Lemma act_frame (a : action) (s : t) :
  ids_ok s ->
  (forall k it, Py.get k (items s) = Some it ->
     exists it', Py.get k (items (act a s)) = Some it'
                 /\ same_but_stock it it')
  /\ (forall k po, Py.get k (orders s) = Some po ->
        exists po', Py.get k (orders (act a s)) = Some po'
                    /\ same_order_head po po').
Proof.
  intros W. destruct a as [c | order_id item_id qty]; simpl.
  - destruct (step_frame_ids c s W) as (_ & _ & Hi & Ho). split.
    + intros k it H. destruct (Hi k it H) as [w Hw].
      eexists. split; [exact Hw|]. repeat split.
    + intros k po H. destruct (Ho k po H) as [st Hst].
      eexists. split; [exact Hst|]. repeat split.
  - rewrite add_line_eq.
    destruct (Py.get order_id (orders s)) as [po0|]; simpl.
    + split.
      * intros k it H. exists it. split; [assumption|apply same_but_stock_refl].
      * intros k po H. destruct (Z.eq_dec k order_id) as [->|Hne].
        -- eexists. rewrite get_alter_eq, H. simpl.
           split; [reflexivity|]. repeat split.
        -- exists po. rewrite get_alter_ne by assumption.
           split; [assumption|apply same_order_head_refl].
    + split.
      * intros k it H. exists it. split; [assumption|apply same_but_stock_refl].
      * intros k po H. exists po.
        split; [assumption|apply same_order_head_refl].
Qed.

(** X4.  Through any sequence of steps (calls of the methods of
    [InventorySystem], and [add_item] of a stored order) from a state that
    steps reach, a stored item stays under its key and keeps its
    identifier, name, price, category, supplier, reorder level and
    reorder quantity: only its stock can differ.  A stored order stays
    under its key and keeps its identifier, its date and its supplier. *)
Theorem X4_items_and_orders_keep_identity (s : t) (l : list action) :
  reachable_by_actions s ->
  (forall k it, Py.get k (items s) = Some it ->
     exists it', Py.get k (items (run_actions l s)) = Some it'
                 /\ same_but_stock it it')
  /\ (forall k po, Py.get k (orders s) = Some po ->
        exists po', Py.get k (orders (run_actions l s)) = Some po'
                    /\ same_order_head po po').
Proof.
  unfold run_actions. revert s. induction l as [|a l IH]; simpl; intros s R.
  - split.
    + intros k it H. exists it. split; [assumption|apply same_but_stock_refl].
    + intros k po H. exists po. split; [assumption|apply same_order_head_refl].
  - destruct (by_actions_core s R) as (W & _).
    destruct (act_frame a s W) as [Hi Ho].
    destruct (IH (act a s) (by_act a s R)) as [IHi IHo].
    split.
    + intros k it H. destruct (Hi k it H) as (it1 & G1 & S1).
      destruct (IHi k it1 G1) as (it2 & G2 & S2).
      exists it2. split; [exact G2|]. eapply same_but_stock_trans; eassumption.
    + intros k po H. destruct (Ho k po H) as (po1 & G1 & S1).
      destruct (IHo k po1 G1) as (po2 & G2 & S2).
      exists po2. split; [exact G2|]. eapply same_order_head_trans; eassumption.
Qed.

(** X5.  In a state that steps reach (calls of the methods of
    [InventorySystem], and [add_item] of a stored order), the reorder
    level of every item is at least 0 and its reorder quantity at least 1;
    every order has one of the statuses OPEN, SUBMITTED, RECEIVED and
    CANCELED and a registered supplier, and no line of it has a negative
    quantity. *)
Theorem X5_items_and_orders_well_formed (s : t) :
  reachable_by_actions s ->
  (forall k it, Py.get k (items s) = Some it ->
     0 <= InventoryItem.reorderLevel it /\ 1 <= InventoryItem.reorderQty it)
  /\ (forall k po, Py.get k (orders s) = Some po ->
        is_status (PurchaseOrder.status po)
        /\ Py.mem (PurchaseOrder.supplierID po) (suppliers s) = true
        /\ (forall item_id qty,
              In (item_id, qty) (PurchaseOrder.items po) -> 0 <= qty)).
Proof.
  intros R.
  destruct (by_actions_core s R) as (_ & Hl & Ho).
  destruct (by_actions_inv s R) as (_ & Hq & _).
  split.
  - intros k it H. unfold levels_ok in Hl. rewrite Forall_forall in Hl.
    apply Hl. eapply get_In_values; eassumption.
  - intros k po H. rewrite Forall_forall in Ho.
    destruct (Ho po (get_In_values _ _ _ H)) as [H1 H2].
    split; [assumption|]. split; [assumption|].
    intros item_id qty Hin.
    unfold lines_ok in Hq. rewrite Forall_forall in Hq.
    pose proof (Hq po (get_In_values _ _ _ H)) as Hpo.
    rewrite Forall_forall in Hpo. apply Hpo.
    unfold Py.values. apply (in_map snd _ (item_id, qty)). assumption.
Qed.

Lemma two_line_state_reached : reachable_by_actions two_line_state.
Proof.
  replace two_line_state with (run_actions two_line_actions init)
    by (vm_compute; reflexivity).
  apply run_actions_reachable. apply by_init.
Qed.

Lemma X4_witness :
  (stock_at (items two_line_state) 1002 = Some 2
   /\ stock_at (items (run_actions later_actions two_line_state)) 1002 = Some 1
   /\ status_at (orders (run_actions later_actions two_line_state)) 5001
      = Some "CANCELED"
   /\ option_map PurchaseOrder.items
        (Py.get 5001 (orders (run_actions later_actions two_line_state)))
      = Some [(1001, 9); (1002, 3)])
  /\ (exists it',
        Py.get 1002 (items (run_actions later_actions two_line_state))
        = Some it'
        /\ same_but_stock
             (InventoryItem.mk 1002 "Tea" price_1_20 1 1 2 8 12) it')
  /\ (exists po',
        Py.get 5001 (orders (run_actions later_actions two_line_state))
        = Some po'
        /\ same_order_head
             (PurchaseOrder.mk 5001 "2024-01-01" 1 "OPEN"
                [(1001, 5); (1002, 3)]) po').
Proof.
  destruct (X4_items_and_orders_keep_identity two_line_state later_actions
              two_line_state_reached) as [Hi Ho].
  split; [repeat split; vm_compute; reflexivity|]. split.
  - apply (Hi 1002). vm_compute. reflexivity.
  - apply (Ho 5001). vm_compute. reflexivity.
Defined.

Lemma X5_witness :
  (0 <= 8 /\ 1 <= 12)
  /\ is_status "OPEN"
  /\ Py.mem 1 (suppliers two_line_state) = true
  /\ 0 <= 3.
Proof.
  destruct (X5_items_and_orders_well_formed two_line_state
              two_line_state_reached) as [Hi Ho].
  destruct (Ho 5001 (PurchaseOrder.mk 5001 "2024-01-01" 1 "OPEN"
                       [(1001, 5); (1002, 3)]))
    as (S & M & Q); [vm_compute; reflexivity|].
  split; [|split; [exact S | split; [exact M|]]].
  - apply (Hi 1002 (InventoryItem.mk 1002 "Tea" price_1_20 1 1 2 8 12)).
    vm_compute. reflexivity.
  - apply (Q 1002 3). simpl. auto.
Defined.

End Steps.
